(** * Pizza ordering back end: storage layer and route handlers

    A shallow embedding of [server/storage.ts] (the [DatabaseStorage] and
    [MemStorage] classes), of the route handlers in [server/routes.ts],
    [server/routes/promotions.ts], [server/routes/payment.ts] and
    [server/routes/subscriptions.ts], [server/routes/orders.ts],
    [server/routes/notifications.ts], [server/routes/inventory.ts] and
    [server/routes/profile.ts], of the cart of the client
    ([client/src/context/cart-context.tsx]), and the properties of the
    order, promotion, loyalty and subscription flows.

    Conventions.
    - A JavaScript [number] is an exact rational ([Q]); values read from or
      written to an [integer] column are [Z].  Rounding of IEEE doubles is
      not part of the model.
    - A string is its UTF-8 encoding; [Js.length] counts UTF-16 code units,
      as [String.prototype.length] and zod's [min]/[max] do.
    - A table is the list of its rows.  [select ... where] keeps the rows
      that satisfy the condition, [update ... set ... where] rewrites them in
      place, [insert ... returning] appends a row whose [id] comes from the
      table's sequence.  [const [row] = ...] is [head].
    - Row types and column names are those of [shared/schema.ts].  Where
      [storage.ts] names a column the table does not declare, the model
      follows the query builder: such a key of [.set({...})] is dropped, a
      [.set] left with no declared key and a [where] on an undeclared column
      give a statement the database refuses, and the call raises
      ([Drizzle.Raised]).
    - An [integer] column holds 32-bit values ([Int4.fits]).  The storage
      methods are first given on the values the database accepts; module
      [Bounded] adds the refusal of the others, which a handler's [catch]
      answers with 500.
    - [registerRoutes] registers the handlers of [routes/*.ts] before its
      own; for a path declared twice the first handler answers
      ([Express.dispatch]).
    - Every clock read of one request sees the same instant [now env]. *)

From Stdlib Require Import ZArith QArith Qminmax Qround Qabs DecimalString.
From stdpp Require Import base decidable option list sorting gmap strings.

Local Open Scope string_scope.
Local Open Scope Z_scope.

(** ** JavaScript values *)

Module Js.

(** [Number.prototype.toString] on an integer. *)
Definition toString (n : Z) : string := NilZero.string_of_int (Z.to_int n).

(** [Number.isInteger]. *)
Definition isInteger (x : Q) : bool := Qeq_bool (inject_Z (Qfloor x)) x.

(** [Math.floor] and [Math.min]. *)
Definition floor (x : Q) : Z := Qfloor x.
Definition min (x y : Q) : Q := Qmin x y.

(** [x !== y] on numbers. *)
Definition strictNe (x y : Q) : bool := negb (Qeq_bool x y).

(** Two decimals of a non-negative integer below 100. *)
Definition pad2 (n : Z) : string :=
  if n <? 10 then "0" +:+ toString n else toString n.

(** [Number.prototype.toFixed(2)]: the sign, then the hundredths of the
    absolute value rounded half up. *)
Definition toFixed2 (x : Q) : string :=
  let h := Qfloor (Qabs x * 100 + (1 # 2)) in
  let digits := toString (h / 100) +:+ "." +:+ pad2 (h mod 100) in
  if Qle_bool 0 x then digits else "-" +:+ digits.

(** [String.prototype.length]: the UTF-16 code units of a string given by
    its UTF-8 bytes.  A byte that starts a character of one to three bytes
    counts one unit, a byte that starts a character of four bytes counts
    two (a surrogate pair), a continuation byte none. *)
Definition utf16Units (c : Ascii.ascii) : nat :=
  let n := Ascii.nat_of_ascii c in
  if (n <? 128)%nat then 1%nat
  else if (n <? 192)%nat then 0%nat
  else if (n <? 240)%nat then 1%nat
  else 2%nat.

Fixpoint length (s : string) : nat :=
  match s with
  | EmptyString => 0%nat
  | String c rest => (utf16Units c + length rest)%nat
  end.

End Js.

(** [JSON.parse]d values: what a request body is made of. *)
Module Json.
#[local] Unset Elimination Schemes.
Inductive t :=
| Null
| Bool (b : bool)
| Num (n : Q)
| Str (s : string)
| Arr (elements : list t)
| Obj (members : list (string * t)).

Definition isNull (j : t) : bool :=
  match j with Null => true | _ => false end.
End Json.

#[global] Instance Qle_decision (x y : Q) : Decision (x <= y)%Q.
Proof. unfold Qle. apply _. Defined.

#[global] Instance Qlt_decision (x y : Q) : Decision (x < y)%Q.
Proof. unfold Qlt. apply _. Defined.

(** ** Rows *)

Module User.
Record t := mk {
  id : Z;
  username : string;
  isAdmin : bool;
  loyaltyPoints : Z;
  membershipTier : string
}.
Definition set_loyaltyPoints (v : Z) (u : t) : t :=
  mk u.(id) u.(username) u.(isAdmin) v u.(membershipTier).
End User.

(** The four catalog tables ([pizza_bases], [pizza_sauces], [pizza_cheeses],
    [pizza_toppings]) share this shape. *)
Module CatalogItem.
Record t := mk {
  id : Z;
  name : string;
  price : Q;
  stock : Z;
  threshold : Z
}.
Definition set_stock (v : Z) (c : t) : t :=
  mk c.(id) c.(name) c.(price) v c.(threshold).
End CatalogItem.

(** [PizzaConfig] of [shared/schema.ts]: the snapshot a cart line carries. *)
Module PizzaConfig.
Record t := mk {
  base : option CatalogItem.t;
  sauce : option CatalogItem.t;
  cheese : option CatalogItem.t;
  toppings : list CatalogItem.t
}.
End PizzaConfig.

Module Order.
Record t := mk {
  id : Z;
  userId : Z;
  status : string;
  totalAmount : Q;
  paymentId : option string;
  paymentStatus : string;
  deliveryAddress : string;
  contactNumber : string;
  discountAmount : Q;
  loyaltyPointsRedeemed : Z;
  createdAt : Z;
  updatedAt : Z
}.
Definition set_payment (pid pstatus : string) (now : Z) (o : t) : t :=
  mk o.(id) o.(userId) o.(status) o.(totalAmount) (Some pid) pstatus
     o.(deliveryAddress) o.(contactNumber) o.(discountAmount)
     o.(loyaltyPointsRedeemed) o.(createdAt) now.
Definition set_discountAmount (v : Q) (o : t) : t :=
  mk o.(id) o.(userId) o.(status) o.(totalAmount) o.(paymentId)
     o.(paymentStatus) o.(deliveryAddress) o.(contactNumber) v
     o.(loyaltyPointsRedeemed) o.(createdAt) o.(updatedAt).
Definition set_loyaltyPointsRedeemed (v : Z) (o : t) : t :=
  mk o.(id) o.(userId) o.(status) o.(totalAmount) o.(paymentId)
     o.(paymentStatus) o.(deliveryAddress) o.(contactNumber)
     o.(discountAmount) v o.(createdAt) o.(updatedAt).
Definition set_updatedAt (v : Z) (o : t) : t :=
  mk o.(id) o.(userId) o.(status) o.(totalAmount) o.(paymentId)
     o.(paymentStatus) o.(deliveryAddress) o.(contactNumber)
     o.(discountAmount) o.(loyaltyPointsRedeemed) o.(createdAt) v.
End Order.

(** [pizzaDetails] is a [json] column: the value is stored as it came. *)
Module OrderItem.
Record t := mk {
  id : Z;
  orderId : Z;
  pizzaDetails : Json.t;
  price : Q;
  quantity : Z
}.
End OrderItem.

Module Promotion.
Record t := mk {
  id : Z;
  code : string;
  discountType : string;
  discountValue : Q;
  minOrderAmount : Q;
  maxUses : option Z;
  currentUses : Z;
  startDate : Z;
  endDate : Z;
  isActive : bool
}.
End Promotion.

Module UserSubscription.
Record t := mk {
  id : Z;
  userId : Z;
  planId : Z;
  status : string;
  startDate : Z;
  nextDeliveryDate : Z
}.
Definition set_status (s : string) (u : t) : t :=
  mk u.(id) u.(userId) u.(planId) s u.(startDate) u.(nextDeliveryDate).
End UserSubscription.

Module Notification.
Record t := mk {
  id : Z;
  userId : Z;
  type : string;
  title : string;
  message : string;
  isRead : bool;
  createdAt : Z
}.
End Notification.

(** ** The database *)

Record Db := mkDb {
  users : list User.t;
  pizzaBases : list CatalogItem.t;
  pizzaSauces : list CatalogItem.t;
  pizzaCheeses : list CatalogItem.t;
  pizzaToppings : list CatalogItem.t;
  orders : list Order.t;
  orders_seq : Z;
  orderItems : list OrderItem.t;
  orderItems_seq : Z;
  promotions : list Promotion.t;
  userSubscriptions : list UserSubscription.t;
  notifications : list Notification.t;
  notifications_seq : Z
}.

Definition with_users (v : list User.t) (d : Db) : Db :=
  mkDb v d.(pizzaBases) d.(pizzaSauces) d.(pizzaCheeses) d.(pizzaToppings)
       d.(orders) d.(orders_seq) d.(orderItems) d.(orderItems_seq)
       d.(promotions) d.(userSubscriptions) d.(notifications)
       d.(notifications_seq).
Definition with_pizzaBases (v : list CatalogItem.t) (d : Db) : Db :=
  mkDb d.(users) v d.(pizzaSauces) d.(pizzaCheeses) d.(pizzaToppings)
       d.(orders) d.(orders_seq) d.(orderItems) d.(orderItems_seq)
       d.(promotions) d.(userSubscriptions) d.(notifications)
       d.(notifications_seq).
Definition with_pizzaSauces (v : list CatalogItem.t) (d : Db) : Db :=
  mkDb d.(users) d.(pizzaBases) v d.(pizzaCheeses) d.(pizzaToppings)
       d.(orders) d.(orders_seq) d.(orderItems) d.(orderItems_seq)
       d.(promotions) d.(userSubscriptions) d.(notifications)
       d.(notifications_seq).
Definition with_pizzaCheeses (v : list CatalogItem.t) (d : Db) : Db :=
  mkDb d.(users) d.(pizzaBases) d.(pizzaSauces) v d.(pizzaToppings)
       d.(orders) d.(orders_seq) d.(orderItems) d.(orderItems_seq)
       d.(promotions) d.(userSubscriptions) d.(notifications)
       d.(notifications_seq).
Definition with_pizzaToppings (v : list CatalogItem.t) (d : Db) : Db :=
  mkDb d.(users) d.(pizzaBases) d.(pizzaSauces) d.(pizzaCheeses) v
       d.(orders) d.(orders_seq) d.(orderItems) d.(orderItems_seq)
       d.(promotions) d.(userSubscriptions) d.(notifications)
       d.(notifications_seq).
Definition with_orders (v : list Order.t) (seq : Z) (d : Db) : Db :=
  mkDb d.(users) d.(pizzaBases) d.(pizzaSauces) d.(pizzaCheeses)
       d.(pizzaToppings) v seq d.(orderItems) d.(orderItems_seq)
       d.(promotions) d.(userSubscriptions) d.(notifications)
       d.(notifications_seq).
Definition with_orderItems (v : list OrderItem.t) (seq : Z) (d : Db) : Db :=
  mkDb d.(users) d.(pizzaBases) d.(pizzaSauces) d.(pizzaCheeses)
       d.(pizzaToppings) d.(orders) d.(orders_seq) v seq
       d.(promotions) d.(userSubscriptions) d.(notifications)
       d.(notifications_seq).
Definition with_promotions (v : list Promotion.t) (d : Db) : Db :=
  mkDb d.(users) d.(pizzaBases) d.(pizzaSauces) d.(pizzaCheeses)
       d.(pizzaToppings) d.(orders) d.(orders_seq) d.(orderItems)
       d.(orderItems_seq) v d.(userSubscriptions) d.(notifications)
       d.(notifications_seq).
Definition with_userSubscriptions (v : list UserSubscription.t) (d : Db)
    : Db :=
  mkDb d.(users) d.(pizzaBases) d.(pizzaSauces) d.(pizzaCheeses)
       d.(pizzaToppings) d.(orders) d.(orders_seq) d.(orderItems)
       d.(orderItems_seq) d.(promotions) v d.(notifications)
       d.(notifications_seq).
Definition with_notifications (v : list Notification.t) (seq : Z) (d : Db)
    : Db :=
  mkDb d.(users) d.(pizzaBases) d.(pizzaSauces) d.(pizzaCheeses)
       d.(pizzaToppings) d.(orders) d.(orders_seq) d.(orderItems)
       d.(orderItems_seq) d.(promotions) d.(userSubscriptions) v seq.

(** What a request handler reads from outside the database: the clock and
    the draw [Math.floor(Math.random() * 1000)]. *)
Record Env := mkEnv { now : Z; random : Z }.

(** ** Query primitives *)

Section Sql.
Context {A : Type} (P : A → Prop) `{!∀ r, Decision (P r)}.

(** [db.select().from(t).where(P)] *)
Definition select (t : list A) : list A := filter P t.

(** [db.update(t).set(f).where(P)]: the table afterwards. *)
Definition update (f : A → A) (t : list A) : list A :=
  (λ r, if decide (P r) then f r else r) <$> t.

(** [.returning()] of that update: the rewritten rows. *)
Definition returning (f : A → A) (t : list A) : list A :=
  f <$> filter P t.
End Sql.

(** *** The columns of [shared/schema.ts] *)

Module Schema.

Definition orders : list string :=
  ["id"; "userId"; "status"; "totalAmount"; "paymentId"; "paymentStatus";
   "createdAt"; "updatedAt"; "deliveryAddress"; "contactNumber";
   "estimatedDeliveryTime"; "actualDeliveryTime"; "deliveryPersonId";
   "deliveryNotes"; "trackingUrl"; "discountCode"; "discountAmount";
   "isSubscriptionOrder"; "subscriptionId"; "paymentMethodId";
   "loyaltyPointsEarned"; "loyaltyPointsRedeemed"].

Definition promotions : list string :=
  ["id"; "code"; "description"; "discountType"; "discountValue";
   "minOrderAmount"; "maxUses"; "currentUses"; "startDate"; "endDate";
   "isActive"].

Definition userSubscriptions : list string :=
  ["id"; "userId"; "planId"; "startDate"; "nextDeliveryDate"; "status";
   "paymentMethodId"; "defaultAddressId"; "defaultPizzaConfig"].

End Schema.

(** *** What the query builder makes of a statement *)

Module Drizzle.

(** A call either returns or raises, leaving the tables as they were. *)
Inductive Outcome (A : Type) :=
| Returned (a : A)
| Raised.
Arguments Returned {A} a.
Arguments Raised {A}.

(** The object given to [.set({...})] is the list of its keys, each with
    what it writes into a row.  [noField] stands with a key the row has no
    field for. *)
Definition noField {A : Type} : A → A := λ row, row.

(** The keys that are columns of the table; the others are dropped. *)
Definition kept {A : Type} (columns : list string)
    (values : list (string * (A → A))) : list (string * (A → A)) :=
  filter (λ kv, kv.1 ∈ columns) values.

(** The row after the kept keys are written. *)
Definition assign {A : Type} (columns : list string)
    (values : list (string * (A → A))) : A → A :=
  λ row, foldl (λ r kv, kv.2 r) row (kept columns values).

(** [.set({...})] with no column among its keys leaves an [UPDATE] without
    assignments, which the database refuses. *)
Definition set {A : Type} (columns : list string)
    (values : list (string * (A → A))) : Outcome (A → A) :=
  match kept columns values with
  | [] => Raised
  | _ => Returned (assign columns values)
  end.

(** A condition is well formed when every column it names is one of the
    table; [table.name] is [undefined] otherwise and the comparison built
    from it is refused. *)
Definition declared (columns names : list string) : bool :=
  forallb (λ name, bool_decide (name ∈ columns)) names.

End Drizzle.

(** *** The range of an [integer] column *)

Module Int4.

Definition fits (z : Z) : Prop := -2147483648 ≤ z ≤ 2147483647.

#[global] Instance fits_decision z : Decision (fits z).
Proof. unfold fits. apply _. Defined.

(** A JavaScript number the column takes: an integer in range. *)
Definition takes (x : Q) : bool :=
  Js.isInteger x && bool_decide (fits (Js.floor x)).

End Int4.

(** ** [DatabaseStorage] of [server/storage.ts] *)

Module InsertOrder.
Record t := mk {
  userId : Z;
  totalAmount : Q;
  deliveryAddress : string;
  contactNumber : string
}.
End InsertOrder.

Module InsertOrderItem.
Record t := mk {
  orderId : Z;
  pizzaDetails : Json.t;
  price : Q;
  quantity : Z
}.
End InsertOrderItem.

Module InsertNotification.
Record t := mk {
  userId : Z;
  type : string;
  title : string;
  message : string;
  isRead : bool
}.
End InsertNotification.

Module DatabaseStorage.

(** *** Users *)

Definition getUser (d : Db) (id : Z) : option User.t :=
  head (select (λ u, u.(User.id) = id) d.(users)).

(** Adds [points] to the stored balance, and stores zero when the sum is
    negative. *)
Definition updateUserLoyaltyPoints (d : Db) (id points : Z)
    : Db * option User.t :=
  match getUser d id with
  | None => (d, None)
  | Some user =>
      let newPoints := user.(User.loyaltyPoints) + points in
      let stored := if bool_decide (newPoints >= 0) then newPoints else 0 in
      (with_users
         (update (λ u, u.(User.id) = id) (User.set_loyaltyPoints stored)
            d.(users)) d,
       head (returning (λ u, u.(User.id) = id)
               (User.set_loyaltyPoints stored) d.(users)))
  end.

(** *** Catalog: the same three operations on each of the four tables *)

Definition getItem (t : list CatalogItem.t) (id : Z)
    : option CatalogItem.t :=
  head (select (λ c, c.(CatalogItem.id) = id) t).

Definition setItemStock (t : list CatalogItem.t) (id stock : Z)
    : list CatalogItem.t :=
  update (λ c, c.(CatalogItem.id) = id) (CatalogItem.set_stock stock) t.

Definition setItemStock_returning (t : list CatalogItem.t) (id stock : Z)
    : option CatalogItem.t :=
  head (returning (λ c, c.(CatalogItem.id) = id)
          (CatalogItem.set_stock stock) t).

Definition getPizzaBase (d : Db) (id : Z) := getItem d.(pizzaBases) id.
Definition updatePizzaBaseStock (d : Db) (id stock : Z)
    : Db * option CatalogItem.t :=
  (with_pizzaBases (setItemStock d.(pizzaBases) id stock) d,
   setItemStock_returning d.(pizzaBases) id stock).

Definition getPizzaSauce (d : Db) (id : Z) := getItem d.(pizzaSauces) id.
Definition updatePizzaSauceStock (d : Db) (id stock : Z)
    : Db * option CatalogItem.t :=
  (with_pizzaSauces (setItemStock d.(pizzaSauces) id stock) d,
   setItemStock_returning d.(pizzaSauces) id stock).

Definition getPizzaCheese (d : Db) (id : Z) := getItem d.(pizzaCheeses) id.
Definition updatePizzaCheeseStock (d : Db) (id stock : Z)
    : Db * option CatalogItem.t :=
  (with_pizzaCheeses (setItemStock d.(pizzaCheeses) id stock) d,
   setItemStock_returning d.(pizzaCheeses) id stock).

Definition getPizzaTopping (d : Db) (id : Z) := getItem d.(pizzaToppings) id.
Definition updatePizzaToppingStock (d : Db) (id stock : Z)
    : Db * option CatalogItem.t :=
  (with_pizzaToppings (setItemStock d.(pizzaToppings) id stock) d,
   setItemStock_returning d.(pizzaToppings) id stock).

(** *** Orders *)

Definition getOrder (d : Db) (id : Z) : option Order.t :=
  head (select (λ o, o.(Order.id) = id) d.(orders)).

Definition createOrder (d : Db) (now : Z) (order : InsertOrder.t)
    : Db * Order.t :=
  let newOrder :=
    Order.mk d.(orders_seq) order.(InsertOrder.userId) "pending"
      order.(InsertOrder.totalAmount) None "pending"
      order.(InsertOrder.deliveryAddress) order.(InsertOrder.contactNumber)
      0%Q 0 now now in
  (with_orders (d.(orders) ++ [newOrder]) (d.(orders_seq) + 1) d, newOrder).

Definition updateOrders (d : Db) (id : Z) (f : Order.t → Order.t)
    : Db * option Order.t :=
  (with_orders (update (λ o, o.(Order.id) = id) f d.(orders))
     d.(orders_seq) d,
   head (returning (λ o, o.(Order.id) = id) f d.(orders))).

Definition updateOrderPayment (d : Db) (now : Z) (id : Z)
    (paymentId paymentStatus : string) : Db * option Order.t :=
  updateOrders d id (Order.set_payment paymentId paymentStatus now).

(** [.set({ promotionId, discountAmount, updatedAt: new Date() })]:
    [orders] has no column [promotionId]. *)
Definition updateOrderPromotion (d : Db) (now : Z) (id promotionId : Z)
    (discountAmount : Q) : Db * option Order.t :=
  updateOrders d id
    (Drizzle.assign Schema.orders
       [("promotionId", Drizzle.noField);
        ("discountAmount", Order.set_discountAmount discountAmount);
        ("updatedAt", Order.set_updatedAt now)]).

(** [.set({ loyaltyDiscountAmount, loyaltyPointsRedeemed,
            updatedAt: new Date() })]: [orders] has no column
    [loyaltyDiscountAmount]. *)
Definition updateOrderLoyaltyDiscount (d : Db) (now : Z) (id : Z)
    (loyaltyDiscountAmount : Q) (loyaltyPointsRedeemed : Z)
    : Db * option Order.t :=
  updateOrders d id
    (Drizzle.assign Schema.orders
       [("loyaltyDiscountAmount", Drizzle.noField);
        ("loyaltyPointsRedeemed",
         Order.set_loyaltyPointsRedeemed loyaltyPointsRedeemed);
        ("updatedAt", Order.set_updatedAt now)]).

Definition getOrderItems (d : Db) (orderId : Z) : list OrderItem.t :=
  select (λ i, i.(OrderItem.orderId) = orderId) d.(orderItems).

Definition createOrderItem (d : Db) (item : InsertOrderItem.t)
    : Db * OrderItem.t :=
  let orderItem :=
    OrderItem.mk d.(orderItems_seq) item.(InsertOrderItem.orderId)
      item.(InsertOrderItem.pizzaDetails) item.(InsertOrderItem.price)
      item.(InsertOrderItem.quantity) in
  (with_orderItems (d.(orderItems) ++ [orderItem])
     (d.(orderItems_seq) + 1) d,
   orderItem).

(** *** Notifications *)

Definition createNotification (d : Db) (now : Z)
    (n : InsertNotification.t) : Db * Notification.t :=
  let newNotification :=
    Notification.mk d.(notifications_seq) n.(InsertNotification.userId)
      n.(InsertNotification.type) n.(InsertNotification.title)
      n.(InsertNotification.message) n.(InsertNotification.isRead) now in
  (with_notifications (d.(notifications) ++ [newNotification])
     (d.(notifications_seq) + 1) d,
   newNotification).

(** *** User subscriptions *)

Definition getUserSubscription (d : Db) (id : Z)
    : option UserSubscription.t :=
  head (select (λ s, s.(UserSubscription.id) = id) d.(userSubscriptions)).

Definition updateSubscriptions (d : Db) (id : Z)
    (f : UserSubscription.t → UserSubscription.t)
    : Db * option UserSubscription.t :=
  (with_userSubscriptions
     (update (λ s, s.(UserSubscription.id) = id) f d.(userSubscriptions)) d,
   head (returning (λ s, s.(UserSubscription.id) = id) f
           d.(userSubscriptions))).

(** [.set({ status: "cancelled", cancelDate: new Date() })]:
    [user_subscriptions] has no column [cancelDate]. *)
Definition cancelUserSubscription (d : Db) (now : Z) (id : Z) :=
  updateSubscriptions d id
    (Drizzle.assign Schema.userSubscriptions
       [("status", UserSubscription.set_status "cancelled");
        ("cancelDate", Drizzle.noField)]).

Definition pauseUserSubscription (d : Db) (id : Z) :=
  updateSubscriptions d id (UserSubscription.set_status "paused").

Definition resumeUserSubscription (d : Db) (id : Z) :=
  updateSubscriptions d id (UserSubscription.set_status "active").

(** *** Promotions *)

Definition getPromotionByCode (d : Db) (code : string)
    : option Promotion.t :=
  head (select (λ p, p.(Promotion.code) = code) d.(promotions)).

(** Looks the promotion up by the code [id.toString()]; when one is found,
    [.set({ usageCount: promotion.usageCount + 1 })] on the row whose id is
    [id].  [promotions] has no column [usageCount]. *)
Definition incrementPromotionUse (d : Db) (id : Z)
    : Drizzle.Outcome (Db * option Promotion.t) :=
  match getPromotionByCode d (Js.toString id) with
  | None => Drizzle.Returned (d, None)
  | Some promotion =>
      match Drizzle.set Schema.promotions
              [("usageCount", Drizzle.noField)] with
      | Drizzle.Raised => Drizzle.Raised
      | Drizzle.Returned f =>
          Drizzle.Returned
            (with_promotions
               (update (λ p, p.(Promotion.id) = id) f d.(promotions)) d,
             head (returning (λ p, p.(Promotion.id) = id) f d.(promotions)))
      end
  end.

(** The columns the [where] clause of [validatePromotion] names, in the
    order of its six conditions. *)
Definition validColumns : list string :=
  ["code"; "isActive"; "startDate"; "endDate"; "usageCount"; "maxUsage";
   "minOrderAmount"].

(** The conditions of that clause on columns the rows have.  The fifth,
    [lt(promotions.usageCount, promotions.maxUsage)], compares two names
    that are no columns: there is nothing in a row to compare, and
    [validatePromotion] is refused before any row is looked at. *)
Definition validWhere (now : Z) (code : string) (orderAmount : Q)
    (p : Promotion.t) : Prop :=
  p.(Promotion.code) = code ∧
  p.(Promotion.isActive) = true ∧
  p.(Promotion.startDate) ≤ now ∧
  now ≤ p.(Promotion.endDate) ∧
  (p.(Promotion.minOrderAmount) <= orderAmount)%Q.

#[global] Instance validWhere_decision now code orderAmount p
  : Decision (validWhere now code orderAmount p).
Proof. unfold validWhere. apply _. Defined.

Definition validatePromotion (d : Db) (now : Z) (code : string)
    (orderAmount : Q) : Drizzle.Outcome (option Promotion.t) :=
  if Drizzle.declared Schema.promotions validColumns
  then
    Drizzle.Returned
      (head (select (validWhere now code orderAmount) d.(promotions)))
  else Drizzle.Raised.

(** *** Inventory status *)

Definition lowStock (c : CatalogItem.t) : Prop :=
  c.(CatalogItem.stock) < c.(CatalogItem.threshold).

#[global] Instance lowStock_decision c : Decision (lowStock c).
Proof. unfold lowStock. apply _. Defined.

Definition getLowStockItems (d : Db) : list CatalogItem.t :=
  select lowStock d.(pizzaBases) ++ select lowStock d.(pizzaSauces) ++
  select lowStock d.(pizzaCheeses) ++ select lowStock d.(pizzaToppings).

End DatabaseStorage.

(** *** The same methods with the refusals of the database

    A statement that carries a value an [integer] column does not take
    raises and writes nothing. *)

Module Bounded.
Import Drizzle.

(** [getUser] compares [users.id] with [id]; the update writes the new
    balance into [loyalty_points]. *)
Definition updateUserLoyaltyPoints (d : Db) (id points : Z)
    : Outcome (Db * option User.t) :=
  if decide (Int4.fits id)
  then
    match DatabaseStorage.getUser d id with
    | None => Returned (d, None)
    | Some user =>
        let newPoints := user.(User.loyaltyPoints) + points in
        if decide (Int4.fits (if bool_decide (newPoints >= 0)
                              then newPoints else 0))
        then Returned (DatabaseStorage.updateUserLoyaltyPoints d id points)
        else Raised
    end
  else Raised.

(** [pizza_details] is declared [notNull], and a [null] is sent as the
    SQL null; [quantity] goes into the [integer] column
    [order_items.quantity]. *)
Definition takesItem (pizzaDetails : Json.t) (quantity : Q) : bool :=
  negb (Json.isNull pizzaDetails) && Int4.takes quantity.

Definition createOrderItem (d : Db) (orderId : Z) (pizzaDetails : Json.t)
    (price quantity : Q) : Outcome (Db * OrderItem.t) :=
  if takesItem pizzaDetails quantity
  then
    Returned
      (DatabaseStorage.createOrderItem d
         (InsertOrderItem.mk orderId pizzaDetails price
            (Js.floor quantity)))
  else Raised.

End Bounded.

(** ** [MemStorage] of [server/storage.ts]: inventory status

    The catalog lives in four [Map<number, _>]; the order in which
    [Map.values()] visits them is not part of the model. *)

Module MemStorage.

Record t := mk {
  pizzaBases : gmap Z CatalogItem.t;
  pizzaSauces : gmap Z CatalogItem.t;
  pizzaCheeses : gmap Z CatalogItem.t;
  pizzaToppings : gmap Z CatalogItem.t
}.

Definition values (m : gmap Z CatalogItem.t) : list CatalogItem.t :=
  (map_to_list m).*2.

Definition lowStock (c : CatalogItem.t) : Prop :=
  c.(CatalogItem.stock) ≤ c.(CatalogItem.threshold).

#[global] Instance lowStock_decision c : Decision (lowStock c).
Proof. unfold lowStock. apply _. Defined.

Definition getLowStockItems (s : t) : list CatalogItem.t :=
  filter lowStock (values s.(pizzaBases)) ++
  filter lowStock (values s.(pizzaSauces)) ++
  filter lowStock (values s.(pizzaCheeses)) ++
  filter lowStock (values s.(pizzaToppings)).

End MemStorage.

(** ** Request handlers *)

Module Http.

Inductive Body :=
| Message (message : string)
| Invalid (message : string)
| PromotionQuote (promotion : Promotion.t) (discountAmount finalAmount : Q)
| PromotionApplied (order : Order.t) (discountAmount finalAmount : Q)
| PointsRedeemed (order : Order.t) (discountAmount finalAmount : Q)
    (remainingPoints : Z)
| PaymentProcessed (orderId : Z) (paymentId paymentStatus : string)
    (order : option Order.t)
| OrderWithItems (order : Order.t) (items : list OrderItem.t)
| Subscription (subscription : option UserSubscription.t).

Record Response := mk { status : Z; body : Body }.

(** [res.status(code).json({ message })] *)
Definition fail (code : Z) (message : string) : Response :=
  mk code (Message message).

End Http.

(** *** [server/routes/promotions.ts]

    [uid] is [req.user!.id] of the authenticated session; a route parameter
    [:id] is taken after [parseInt]. *)

Module PromotionRoutes.
Import DatabaseStorage.

Record ValidateBody := { code : string; orderAmount : Q }.

(** The discount both promotion handlers compute. *)
Definition discountFor (promotion : Promotion.t) (amount : Q) : Q :=
  let discountAmount :=
    if bool_decide (promotion.(Promotion.discountType) = "percentage")
    then (amount * promotion.(Promotion.discountValue) / 100)%Q
    else promotion.(Promotion.discountValue) in
  Js.min discountAmount amount.

(** POST /api/promotions/validate *)
Definition validate (d : Db) (env : Env) (req : ValidateBody)
    : Db * Http.Response :=
  if bool_decide (req.(code) = "") || Qeq_bool req.(orderAmount) 0
  then (d, Http.fail 400 "Invalid request data")
  else
    match validatePromotion d env.(now) req.(code) req.(orderAmount) with
    | Drizzle.Raised => (d, Http.fail 500 "Error validating promotion")
    | Drizzle.Returned None =>
        (d, Http.fail 404 "Invalid or expired promotion code")
    | Drizzle.Returned (Some promotion) =>
        let discountAmount := discountFor promotion req.(orderAmount) in
        (d, Http.mk 200
              (Http.PromotionQuote promotion discountAmount
                 (req.(orderAmount) - discountAmount)%Q))
    end.

(** POST /api/orders/:id/apply-promotion *)
Definition applyPromotion (d : Db) (env : Env) (uid : Z) (orderId : Z)
    (code : string) : Db * Http.Response :=
  if bool_decide (code = "")
  then (d, Http.fail 400 "Invalid promotion code")
  else
    match getOrder d orderId with
    | None => (d, Http.fail 404 "Order not found")
    | Some order =>
        if bool_decide (order.(Order.userId) ≠ uid)
        then (d, Http.fail 403 "Unauthorized access to this order")
        else
          match validatePromotion d env.(now) code
                  order.(Order.totalAmount) with
          | Drizzle.Raised => (d, Http.fail 500 "Error applying promotion")
          | Drizzle.Returned None =>
              (d, Http.fail 404 "Invalid or expired promotion code")
          | Drizzle.Returned (Some promotion) =>
              let discountAmount :=
                discountFor promotion order.(Order.totalAmount) in
              let '(d1, updatedOrder) :=
                updateOrderPromotion d env.(now) orderId
                  promotion.(Promotion.id) discountAmount in
              match incrementPromotionUse d1 promotion.(Promotion.id) with
              | Drizzle.Raised =>
                  (d1, Http.fail 500 "Error applying promotion")
              | Drizzle.Returned (d2, _) =>
                  match updatedOrder with
                  | Some updated =>
                      (d2, Http.mk 200
                             (Http.PromotionApplied updated discountAmount
                                (updated.(Order.totalAmount)
                                 - discountAmount)%Q))
                  | None => (d2, Http.fail 500 "Error applying promotion")
                  end
              end
          end
    end.

Record RedeemBody := { points : Q; orderId : Q }.

(** [redeemSchema.safeParse]: both fields positive integers. *)
Definition redeemSchema (req : RedeemBody) : option (Z * Z) :=
  if bool_decide (0 < req.(points))%Q && Js.isInteger req.(points) &&
     bool_decide (0 < req.(orderId))%Q && Js.isInteger req.(orderId)
  then Some (Js.floor req.(points), Js.floor req.(orderId))
  else None.

(** POST /api/loyalty-points/redeem *)
Definition redeem (d : Db) (env : Env) (uid : Z) (req : RedeemBody)
    : Db * Http.Response :=
  match redeemSchema req with
  | None => (d, Http.mk 400 (Http.Invalid "Invalid redemption data"))
  | Some (points, orderId) =>
      match getUser d uid with
      | None => (d, Http.fail 404 "User not found")
      | Some user =>
          if bool_decide (user.(User.loyaltyPoints) < points)
          then (d, Http.fail 400 "Insufficient loyalty points")
          else
            match getOrder d orderId with
            | None => (d, Http.fail 404 "Order not found")
            | Some order =>
                if bool_decide (order.(Order.userId) ≠ uid)
                then (d, Http.fail 403 "Unauthorized access to this order")
                else
                  let discountAmount := (inject_Z points * (1 # 10))%Q in
                  let actualDiscount :=
                    Js.min discountAmount order.(Order.totalAmount) in
                  let '(d1, updatedOrder) :=
                    updateOrderLoyaltyDiscount d env.(now) orderId
                      actualDiscount points in
                  let '(d2, updatedUser) :=
                    updateUserLoyaltyPoints d1 uid
                      (user.(User.loyaltyPoints) - points) in
                  let '(d3, _) :=
                    createNotification d2 env.(now)
                      (InsertNotification.mk uid "points_redeemed"
                         "Loyalty Points Redeemed"
                         ("You have redeemed " +:+ Js.toString points +:+
                          " loyalty points for a $" +:+
                          Js.toFixed2 actualDiscount +:+
                          " discount on your order.")
                         false) in
                  match updatedOrder, updatedUser with
                  | Some updated, Some u =>
                      (d3, Http.mk 200
                             (Http.PointsRedeemed updated actualDiscount
                                (updated.(Order.totalAmount)
                                 - actualDiscount)%Q
                                u.(User.loyaltyPoints)))
                  | _, _ =>
                      (d3, Http.fail 500 "Error redeeming loyalty points")
                  end
            end
      end
  end.

End PromotionRoutes.

(** *** [server/routes/payment.ts] *)

Module PaymentRoutes.
Import DatabaseStorage.

(** The fields of the body the handler goes on to use; [paymentMethodId],
    [currency] and [cardDetails] are parsed and dropped. *)
Record PaymentBody := { orderId : Z; amount : Q }.

(** [paymentSchema.safeParse]: [amount] positive. *)
Definition paymentSchema (req : PaymentBody) : option PaymentBody :=
  if bool_decide (0 < req.(amount))%Q then Some req else None.

(** POST /api/process-payment *)
Definition processPayment (d : Db) (env : Env) (uid : Z)
    (req : PaymentBody) : Db * Http.Response :=
  match paymentSchema req with
  | None => (d, Http.mk 400 (Http.Invalid "Invalid payment data"))
  | Some data =>
      match getOrder d data.(orderId) with
      | None => (d, Http.fail 404 "Order not found")
      | Some order =>
          if bool_decide (order.(Order.userId) ≠ uid)
          then (d, Http.fail 403 "Unauthorized access to this order")
          else if Js.strictNe data.(amount) order.(Order.totalAmount)
          then (d, Http.fail 400
                     "Payment amount does not match order total")
          else
            let paymentId :=
              "pay_" +:+ Js.toString env.(now) +:+ "_" +:+
              Js.toString env.(random) in
            let paymentStatus := "completed" in
            let '(d1, updatedOrder) :=
              updateOrderPayment d env.(now) data.(orderId) paymentId
                paymentStatus in
            let '(d2, _) :=
              updateUserLoyaltyPoints d1 uid
                (Js.floor (data.(amount) / 10)) in
            (d2, Http.mk 200
                   (Http.PaymentProcessed data.(orderId) paymentId
                      paymentStatus updatedOrder))
      end
  end.

End PaymentRoutes.

(** *** [server/routes/subscriptions.ts] *)

Module SubscriptionRoutes.
Import DatabaseStorage.

Inductive Action := Cancel | Pause | Resume.

Definition store (a : Action) (d : Db) (env : Env) (id : Z)
    : Db * option UserSubscription.t :=
  match a with
  | Cancel => cancelUserSubscription d env.(now) id
  | Pause => pauseUserSubscription d id
  | Resume => resumeUserSubscription d id
  end.

Definition notice (a : Action) (uid : Z) : InsertNotification.t :=
  match a with
  | Cancel =>
      InsertNotification.mk uid "subscription_cancelled"
        "Subscription Cancelled" "Your subscription has been cancelled."
        false
  | Pause =>
      InsertNotification.mk uid "subscription_paused"
        "Subscription Paused" "Your subscription has been paused." false
  | Resume =>
      InsertNotification.mk uid "subscription_resumed"
        "Subscription Resumed" "Your subscription has been resumed." false
  end.

(** POST /api/user-subscriptions/:id/cancel, /pause and /resume: the three
    handlers differ in the storage call and the notification only. *)
Definition handle (a : Action) (d : Db) (env : Env) (uid : Z)
    (subscriptionId : Z) : Db * Http.Response :=
  match getUserSubscription d subscriptionId with
  | None => (d, Http.fail 404 "Subscription not found")
  | Some subscription =>
      if bool_decide (subscription.(UserSubscription.userId) ≠ uid)
      then (d, Http.fail 403 "Unauthorized access to this subscription")
      else
        let '(d1, updatedSubscription) := store a d env subscriptionId in
        let '(d2, _) := createNotification d1 env.(now) (notice a uid) in
        (d2, Http.mk 200 (Http.Subscription updatedSubscription))
  end.

End SubscriptionRoutes.

(** *** Routes declared twice *)

Module Express.

(** A handler answers, or hands the request on with [next()]. *)
Definition Handler (B : Type) : Type :=
  Db → Env → Z → B → Db * option Http.Response.

(** The handlers of one path in the order of their registration: the
    first that answers ends the request. *)
Fixpoint dispatch {B : Type} (handlers : list (Handler B)) (d : Db)
    (env : Env) (uid : Z) (body : B) : Db * option Http.Response :=
  match handlers with
  | [] => (d, None)
  | handler :: later =>
      match handler d env uid body with
      | (d1, Some response) => (d1, Some response)
      | (d1, None) => dispatch later d1 env uid body
      end
  end.

(** A handler that has no [next] among its parameters. *)
Definition answering {B : Type}
    (handler : Db → Env → Z → B → Db * Http.Response) : Handler B :=
  λ d env uid body,
    let '(d1, response) := handler d env uid body in (d1, Some response).

End Express.

(** *** What [createInsertSchema] checks

    [insertOrderSchema] and [insertOrderItemSchema] are built by drizzle-zod
    from the column types: [z.string()] for a [text] column, [z.number()]
    for a [doublePrecision] column, any JSON value for a [json] column, a
    column with a default optional.  For an [integer] column the schema
    asks for a number; whether it also asks for an integer in the range of
    the column is the library's version, which is not among the sources,
    so both are modelled. *)

Module DrizzleZod.
Inductive IntegerRule := NumberOnly | IntegerInRange.
End DrizzleZod.

(** *** POST /api/orders of [server/routes/orders.ts]

    [registerRoutes] calls [registerOrderRoutes] before it declares its own
    handler for the same path. *)

Module OrderRoutes.
Import DatabaseStorage.

(** A body as the checkout page builds it: [totalAmount],
    [deliveryAddress], [contactNumber] and the array [items] of lines with
    [pizzaDetails], [price] and [quantity]; every member is any JSON
    value. *)
Record CartLine := {
  pizzaDetails : Json.t;
  price : Json.t;
  quantity : Json.t
}.

Record OrderBody := {
  totalAmount : Json.t;
  deliveryAddress : Json.t;
  contactNumber : Json.t;
  items : list CartLine
}.

(** [insertOrderSchema.safeParse({ ...req.body, userId: req.user!.id,
    status: "pending", paymentStatus: "pending" })]: a number and two
    strings; the keys the schema does not pick are stripped. *)
Definition insertOrderSchema (uid : Z) (req : OrderBody)
    : option InsertOrder.t :=
  match req.(totalAmount), req.(deliveryAddress), req.(contactNumber) with
  | Json.Num totalAmount, Json.Str deliveryAddress, Json.Str contactNumber =>
      Some (InsertOrder.mk uid totalAmount deliveryAddress contactNumber)
  | _, _, _ => None
  end.

(** A line that passed [insertOrderItemSchema]. *)
Record ItemData := {
  item_pizzaDetails : Json.t;
  item_price : Q;
  item_quantity : Q
}.

(** [insertOrderItemSchema.safeParse({ ...item, orderId: newOrder.id })] *)
Definition insertOrderItemSchema (rule : DrizzleZod.IntegerRule)
    (item : CartLine) : option ItemData :=
  match item.(price), item.(quantity) with
  | Json.Num price, Json.Num quantity =>
      match rule with
      | DrizzleZod.NumberOnly =>
          Some (Build_ItemData item.(pizzaDetails) price quantity)
      | DrizzleZod.IntegerInRange =>
          if Int4.takes quantity
          then Some (Build_ItemData item.(pizzaDetails) price quantity)
          else None
      end
  | _, _ => None
  end.

(** [for (const item of req.body.items)]: a line that fails the schema is
    passed over; an insert that raises ends the loop.  The flag tells
    whether the loop ran to its end. *)
Fixpoint createOrderItems (rule : DrizzleZod.IntegerRule) (d : Db)
    (orderId : Z) (items : list CartLine) : Db * bool :=
  match items with
  | [] => (d, true)
  | item :: rest =>
      match insertOrderItemSchema rule item with
      | None => createOrderItems rule d orderId rest
      | Some data =>
          match Bounded.createOrderItem d orderId data.(item_pizzaDetails)
                  data.(item_price) data.(item_quantity) with
          | Drizzle.Raised => (d, false)
          | Drizzle.Returned (d1, _) =>
              createOrderItems rule d1 orderId rest
          end
      end
  end.

Definition create (rule : DrizzleZod.IntegerRule) (d : Db) (env : Env)
    (uid : Z) (req : OrderBody) : Db * Http.Response :=
  match insertOrderSchema uid req with
  | None => (d, Http.mk 400 (Http.Invalid "Invalid order data"))
  | Some data =>
      let '(d1, newOrder) := createOrder d env.(now) data in
      match createOrderItems rule d1 newOrder.(Order.id) req.(items) with
      | (d2, false) => (d2, Http.fail 500 "Error creating order")
      | (d2, true) =>
          let orderItems := getOrderItems d2 newOrder.(Order.id) in
          let '(d3, _) :=
            createNotification d2 env.(now)
              (InsertNotification.mk uid "order_created" "Order Created"
                 ("Your order #" +:+ Js.toString newOrder.(Order.id) +:+
                  " has been created successfully.")
                 false) in
          (d3, Http.mk 201 (Http.OrderWithItems newOrder orderItems))
      end
  end.

(** POST /api/orders as [registerRoutes] leaves it: the handler above, then
    whatever is declared for the path afterwards. *)
Definition postOrders (rule : DrizzleZod.IntegerRule)
    (later : list (Express.Handler OrderBody))
    : Express.Handler OrderBody :=
  Express.dispatch (Express.answering (create rule) :: later).

End OrderRoutes.

(** ** Vocabulary of the statements *)

(** The four kinds of catalog component and the table of each. *)
Inductive Component := Base | Sauce | Cheese | Topping.

Definition table (k : Component) (d : Db) : list CatalogItem.t :=
  match k with
  | Base => d.(pizzaBases)
  | Sauce => d.(pizzaSauces)
  | Cheese => d.(pizzaCheeses)
  | Topping => d.(pizzaToppings)
  end.

(** The stock the table of kind [k] holds for [id]. *)
Definition stockOf (k : Component) (d : Db) (id : Z) : option Z :=
  CatalogItem.stock <$> DatabaseStorage.getItem (table k d) id.

(** The balance [updateUserLoyaltyPoints] stores: the sum, or zero. *)
Definition credited (balance points : Z) : Z :=
  if bool_decide (balance + points >= 0) then balance + points else 0.

(** The status each subscription action writes. *)
Definition written (a : SubscriptionRoutes.Action) : string :=
  match a with
  | SubscriptionRoutes.Cancel => "cancelled"
  | SubscriptionRoutes.Pause => "paused"
  | SubscriptionRoutes.Resume => "active"
  end.

(** The conditions under which a promotion is usable at [now] for an order
    of [orderAmount]: active, started and not ended, used less often than
    its cap allows, and the order large enough. *)
Definition usable (now : Z) (orderAmount : Q) (p : Promotion.t) : Prop :=
  p.(Promotion.isActive) = true ∧
  (p.(Promotion.startDate) ≤ now ∧ now ≤ p.(Promotion.endDate)) ∧
  (∃ cap,
     p.(Promotion.maxUses) = Some cap ∧ p.(Promotion.currentUses) < cap) ∧
  (p.(Promotion.minOrderAmount) <= orderAmount)%Q.


(** What [JSON.stringify] makes of a catalog row and of the configuration
    a cart line carries. *)
Definition jsonOfItem (c : CatalogItem.t) : Json.t :=
  Json.Obj
    [("id", Json.Num (inject_Z c.(CatalogItem.id)));
     ("name", Json.Str c.(CatalogItem.name));
     ("price", Json.Num c.(CatalogItem.price));
     ("stock", Json.Num (inject_Z c.(CatalogItem.stock)));
     ("threshold", Json.Num (inject_Z c.(CatalogItem.threshold)))].

Definition jsonOfRef (ref : option CatalogItem.t) : Json.t :=
  match ref with
  | Some c => jsonOfItem c
  | None => Json.Null
  end.

Definition jsonOfConfig (p : PizzaConfig.t) : Json.t :=
  Json.Obj
    [("base", jsonOfRef p.(PizzaConfig.base));
     ("sauce", jsonOfRef p.(PizzaConfig.sauce));
     ("cheese", jsonOfRef p.(PizzaConfig.cheese));
     ("toppings", Json.Arr (jsonOfItem <$> p.(PizzaConfig.toppings)))].

(** ** Further methods and handlers

    The remaining methods of [DatabaseStorage] and the handlers that call
    them.  A method that touches a single table outside [Db] takes that
    table and returns it. *)

Section SqlDelete.
Context {A : Type} (P : A → Prop) `{!∀ r, Decision (P r)}.

(** [db.delete(t).where(P)]: the table afterwards. *)
Definition delete (t : list A) : list A := filter (λ r, ¬ P r) t.

(** [result.rowCount] of a delete or an update with that condition. *)
Definition rowCount (t : list A) : nat := length (filter P t).
End SqlDelete.

(** What the handlers below answer: [res.json(value)] or
    [res.status(s).json(value)], [res.status(s).json({ message })], and
    [res.status(s).end()]. *)
Module Rest.

Inductive Answer (A : Type) :=
| Json (status : Z) (value : A)
| Failure (status : Z) (message : string)
| Empty (status : Z).

Arguments Json {A} status value.
Arguments Failure {A} status message.
Arguments Empty {A} status.

Definition status {A} (a : Answer A) : Z :=
  match a with
  | Json s _ => s
  | Failure s _ => s
  | Empty s => s
  end.

End Rest.

(** *** Orders *)

Module OrderStorage.

Definition setStatus (status : string) (now : Z) (o : Order.t) : Order.t :=
  Order.mk o.(Order.id) o.(Order.userId) status o.(Order.totalAmount)
    o.(Order.paymentId) o.(Order.paymentStatus) o.(Order.deliveryAddress)
    o.(Order.contactNumber) o.(Order.discountAmount)
    o.(Order.loyaltyPointsRedeemed) o.(Order.createdAt) now.

Definition updateOrderStatus (d : Db) (now : Z) (id : Z) (status : string)
    : Db * option Order.t :=
  DatabaseStorage.updateOrders d id (setStatus status now).

Definition getOrdersByUser (d : Db) (userId : Z) : list Order.t :=
  select (λ o, o.(Order.userId) = userId) d.(orders).

End OrderStorage.

(** POST /api/payment of [server/routes.ts]: the body's [orderId] and
    [paymentId] are used as they come. *)
Module CheckoutRoutes.
Import DatabaseStorage OrderStorage.


(** POST /api/razorpay-webhook of [server/routes/payment.ts].  The body
    carries a string [event]; its [payload] is absent, or an object with a
    number [order_id] and a string [payment_id]. *)
Record Payload := { order_id : Q; payment_id : string }.

Record WebhookBody := { event : string; payload : option Payload }.

(** [await storage.updateOrderPayment(payload.order_id,
    payload.payment_id, status)] inside the [try]: reading a member of an
    absent payload raises, and so does an [order_id] the column [orders.id]
    does not take. *)
Definition record (d : Db) (env : Env) (payload : option Payload)
    (paymentStatus : string) : Db * Rest.Answer unit :=
  match payload with
  | None => (d, Rest.Failure 500 "Error processing webhook")
  | Some payload =>
      if Int4.takes payload.(order_id)
      then
        ((updateOrderPayment d env.(now) (Js.floor payload.(order_id))
            payload.(payment_id) paymentStatus).1,
         Rest.Empty 200)
      else (d, Rest.Failure 500 "Error processing webhook")
  end.

Definition razorpayWebhook (d : Db) (env : Env) (body : WebhookBody)
    : Db * Rest.Answer unit :=
  if bool_decide (body.(event) = "payment.captured")
  then record d env body.(payload) "completed"
  else if bool_decide (body.(event) = "payment.failed")
  then record d env body.(payload) "failed"
  else (d, Rest.Empty 200).

End CheckoutRoutes.

(** *** Notifications *)

Module NotificationStorage.

Definition setRead (n : Notification.t) : Notification.t :=
  Notification.mk n.(Notification.id) n.(Notification.userId)
    n.(Notification.type) n.(Notification.title) n.(Notification.message)
    true n.(Notification.createdAt).

(** [orderBy(desc(notifications.createdAt))] *)
Definition newestFirst (a b : Notification.t) : Prop :=
  b.(Notification.createdAt) ≤ a.(Notification.createdAt).

#[global] Instance newestFirst_decision a b : Decision (newestFirst a b).
Proof. unfold newestFirst. apply _. Defined.

Definition ofUser (userId : Z) (n : Notification.t) : Prop :=
  n.(Notification.userId) = userId.

Definition unreadOfUser (userId : Z) (n : Notification.t) : Prop :=
  n.(Notification.userId) = userId ∧ n.(Notification.isRead) = false.

#[global] Instance ofUser_decision u n : Decision (ofUser u n).
Proof. unfold ofUser. apply _. Defined.

#[global] Instance unreadOfUser_decision u n : Decision (unreadOfUser u n).
Proof. unfold unreadOfUser. apply _. Defined.

Definition getUserNotifications (d : Db) (userId : Z)
    : list Notification.t :=
  merge_sort newestFirst (select (ofUser userId) d.(notifications)).

Definition getUnreadUserNotifications (d : Db) (userId : Z)
    : list Notification.t :=
  merge_sort newestFirst (select (unreadOfUser userId) d.(notifications)).


Definition markAllUserNotificationsAsRead (d : Db) (userId : Z)
    : Db * bool :=
  (with_notifications
     (update (unreadOfUser userId) setRead d.(notifications))
     d.(notifications_seq) d,
   bool_decide (0 < rowCount (unreadOfUser userId) d.(notifications))%nat).

Definition deleteNotification (d : Db) (id : Z) : Db * bool :=
  (with_notifications
     (delete (λ n, n.(Notification.id) = id) d.(notifications))
     d.(notifications_seq) d,
   bool_decide
     (0 < rowCount (λ n, n.(Notification.id) = id) d.(notifications))%nat).

End NotificationStorage.

(** [server/routes/notifications.ts] *)
Module NotificationRoutes.
Import NotificationStorage.



(** POST /api/notifications/read-all *)
Definition readAll (d : Db) (uid : Z)
    : Db * Rest.Answer (list Notification.t) :=
  let '(d1, success) := markAllUserNotificationsAsRead d uid in
  if success
  then (d1, Rest.Json 200 (getUserNotifications d1 uid))
  else (d1, Rest.Failure 500 "Failed to mark all notifications as read").

(** DELETE /api/notifications/:id *)
Definition remove (d : Db) (uid : Z) (notificationId : Z)
    : Db * Rest.Answer unit :=
  let '(d1, success) := deleteNotification d notificationId in
  if success
  then (d1, Rest.Empty 204)
  else (d1, Rest.Failure 500 "Failed to delete notification").

End NotificationRoutes.

(** *** Catalog administration: [server/routes/inventory.ts] *)

Module InventoryRoutes.
Import DatabaseStorage.

(** [z.object({ stock: z.number().int().min(0) })] *)
Definition stockSchema (stock : Q) : option Z :=
  if Js.isInteger stock && bool_decide (0 <= stock)%Q
  then Some (Js.floor stock) else None.

Definition updateStockOf (k : Component) (d : Db) (id stock : Z)
    : Db * option CatalogItem.t :=
  match k with
  | Base => updatePizzaBaseStock d id stock
  | Sauce => updatePizzaSauceStock d id stock
  | Cheese => updatePizzaCheeseStock d id stock
  | Topping => updatePizzaToppingStock d id stock
  end.

Definition notFound (k : Component) : string :=
  match k with
  | Base => "Pizza base not found"
  | Sauce => "Pizza sauce not found"
  | Cheese => "Pizza cheese not found"
  | Topping => "Pizza topping not found"
  end.

(** PATCH /api/admin/pizza-bases/:id/stock and its three siblings for
    sauces, cheeses and toppings. *)
Definition patchStock (k : Component) (d : Db) (id : Z) (stock : Q)
    : Db * Rest.Answer CatalogItem.t :=
  match stockSchema stock with
  | None => (d, Rest.Failure 400 "Invalid stock data")
  | Some stock =>
      let '(d1, updated) := updateStockOf k d id stock in
      match updated with
      | None => (d1, Rest.Failure 404 (notFound k))
      | Some item => (d1, Rest.Json 200 item)
      end
  end.

(** The same routes on what a request carries and with the refusals of
    the database.  [parseInt(req.params.id)] is an integer or [NaN], here
    [None]; [stock] is the member of that name of the body, any JSON
    value.  The id goes into the comparison with the [id] column and the
    stock into the [stock] column, and a value either does not take raises
    into the [catch]. *)
Definition failed (k : Component) : string :=
  match k with
  | Base => "Error updating pizza base stock"
  | Sauce => "Error updating pizza sauce stock"
  | Cheese => "Error updating pizza cheese stock"
  | Topping => "Error updating pizza topping stock"
  end.

Definition patchStockBounded (k : Component) (d : Db) (id : option Z)
    (stock : Json.t) : Db * Rest.Answer CatalogItem.t :=
  match stock with
  | Json.Num stock =>
      match stockSchema stock, id with
      | None, _ => (d, Rest.Failure 400 "Invalid stock data")
      | Some s, Some id =>
          if decide (Int4.fits id ∧ Int4.fits s)
          then patchStock k d id stock
          else (d, Rest.Failure 500 (failed k))
      | Some s, None => (d, Rest.Failure 500 (failed k))
      end
  | _ => (d, Rest.Failure 400 "Invalid stock data")
  end.


End InventoryRoutes.

(** *** Delivery addresses: the table [user_addresses] *)

Module UserAddress.
Record t := mk {
  id : Z;
  userId : Z;
  name : string;
  addressLine1 : string;
  isDefault : bool
}.
Definition set_isDefault (v : bool) (a : t) : t :=
  mk a.(id) a.(userId) a.(name) a.(addressLine1) v.
End UserAddress.

Module AddressStorage.

Definition getUserAddresses (t : list UserAddress.t) (userId : Z)
    : list UserAddress.t :=
  select (λ a, a.(UserAddress.userId) = userId) t.

Definition getUserAddress (t : list UserAddress.t) (id : Z)
    : option UserAddress.t :=
  head (select (λ a, a.(UserAddress.id) = id) t).


Definition ownedBy (userId addressId : Z) (a : UserAddress.t) : Prop :=
  a.(UserAddress.id) = addressId ∧ a.(UserAddress.userId) = userId.

#[global] Instance ownedBy_decision u i a : Decision (ownedBy u i a).
Proof. unfold ownedBy. apply _. Defined.

(** Two updates: every address of the user loses the flag, then the
    address [addressId] of that user gets it. *)
Definition setDefaultUserAddress (t : list UserAddress.t)
    (userId addressId : Z) : list UserAddress.t * bool :=
  let t1 :=
    update (λ a, a.(UserAddress.userId) = userId)
      (UserAddress.set_isDefault false) t in
  let updatedAddress :=
    head (returning (ownedBy userId addressId)
            (UserAddress.set_isDefault true) t1) in
  (update (ownedBy userId addressId) (UserAddress.set_isDefault true) t1,
   bool_decide (is_Some updatedAddress)).

(** POST /api/profile/addresses/:id/default of [server/routes/profile.ts] *)
Definition makeDefault (t : list UserAddress.t) (uid addressId : Z)
    : list UserAddress.t * Rest.Answer (list UserAddress.t) :=
  match getUserAddress t addressId with
  | None => (t, Rest.Failure 404 "Address not found")
  | Some address =>
      if bool_decide (address.(UserAddress.userId) ≠ uid)
      then (t, Rest.Failure 403 "Unauthorized access to this address")
      else
        let '(t1, success) := setDefaultUserAddress t uid addressId in
        if success
        then (t1, Rest.Json 200 (getUserAddresses t1 uid))
        else (t1, Rest.Failure 500 "Failed to set address as default")
  end.


End AddressStorage.

(** *** Subscription plans: the table [subscription_plans] *)

Module SubscriptionPlan.
Record t := mk {
  id : Z;
  name : string;
  price : Q;
  isActive : bool
}.
Definition set_isActive (v : bool) (p : t) : t :=
  mk p.(id) p.(name) p.(price) v.
End SubscriptionPlan.

Module PlanStorage.

Definition getAllSubscriptionPlans (t : list SubscriptionPlan.t)
    : list SubscriptionPlan.t :=
  select (λ p, p.(SubscriptionPlan.isActive) = true) t.

Definition getSubscriptionPlan (t : list SubscriptionPlan.t) (id : Z)
    : option SubscriptionPlan.t :=
  head (select (λ p, p.(SubscriptionPlan.id) = id) t).

Definition toggleSubscriptionPlanStatus (t : list SubscriptionPlan.t)
    (id : Z) : list SubscriptionPlan.t * option SubscriptionPlan.t :=
  match getSubscriptionPlan t id with
  | None => (t, None)
  | Some plan =>
      let flipped :=
        SubscriptionPlan.set_isActive (negb plan.(SubscriptionPlan.isActive))
      in
      (update (λ p, p.(SubscriptionPlan.id) = id) flipped t,
       head (returning (λ p, p.(SubscriptionPlan.id) = id) flipped t))
  end.

End PlanStorage.

(** *** Reviews: POST /api/orders/:id/reviews of [server/routes/orders.ts] *)

Module Review.
Record t := mk {
  id : Z;
  userId : Z;
  orderId : Z;
  rating : Z;
  comment : string;
  createdAt : Z
}.
End Review.

Module ReviewRoutes.

(** The table [reviews] and its sequence. *)
Record Reviews := { rows : list Review.t; seq : Z }.

(** [db.insert(reviews).values(review).returning()].  The column [rating]
    is [integer("rating")]: the insert of a number that is no integer
    raises, which is [None] here. *)
Definition createReview (r : Reviews) (userId orderId : Z) (rating : Q)
    (comment : string) (createdAt : Z) : option (Reviews * Review.t) :=
  if Js.isInteger rating
  then
    let newReview :=
      Review.mk r.(seq) userId orderId (Js.floor rating) comment createdAt in
    Some (Build_Reviews (r.(rows) ++ [newReview]) (r.(seq) + 1), newReview)
  else None.

(** [{ rating: z.number().min(1).max(5),
       comment: z.string().min(3).max(500) }] *)
Definition reviewSchema (rating : Q) (comment : string) : bool :=
  bool_decide (1 <= rating)%Q && bool_decide (rating <= 5)%Q &&
  bool_decide (3 ≤ Js.length comment)%nat &&
  bool_decide (Js.length comment ≤ 500)%nat.

Definition post (d : Db) (r : Reviews) (env : Env) (uid orderId : Z)
    (rating : Q) (comment : string) : Reviews * Rest.Answer Review.t :=
  match DatabaseStorage.getOrder d orderId with
  | None => (r, Rest.Failure 404 "Order not found")
  | Some order =>
      if bool_decide (order.(Order.userId) ≠ uid)
      then (r, Rest.Failure 403 "Unauthorized access to this order")
      else if bool_decide (order.(Order.status) ≠ "delivered")
      then (r, Rest.Failure 400
                 "Cannot review an order that hasn't been delivered yet")
      else if negb (reviewSchema rating comment)
      then (r, Rest.Failure 400 "Invalid review data")
      else
        match createReview r uid orderId rating comment env.(now) with
        | Some (r1, review) => (r1, Rest.Json 201 review)
        | None => (r, Rest.Failure 500 "Error creating review")
        end
  end.

End ReviewRoutes.

(** *** PATCH /api/admin/orders/:id/status of [server/routes/orders.ts] *)

Module AdminOrderRoutes.
Import DatabaseStorage OrderStorage.



End AdminOrderRoutes.

(** *** [getSimilarPizzaConfigs] of [DatabaseStorage] *)

Module Recommendations.

(** [config.sauce?.id]: the id, or [undefined]. *)
Definition idOf (ref : option CatalogItem.t) : option Z :=
  CatalogItem.id <$> ref.

Definition getSimilarPizzaConfigs (d : Db) (config : PizzaConfig.t)
    : list PizzaConfig.t :=
  let firstTopping := take 1 config.(PizzaConfig.toppings) in
  let sameBase :=
    match config.(PizzaConfig.base) with
    | Some _ =>
        let differentSauces :=
          take 2
            (filter (λ s, Some s.(CatalogItem.id)
                          ≠ idOf config.(PizzaConfig.sauce))
               d.(pizzaSauces)) in
        (λ sauce,
           PizzaConfig.mk config.(PizzaConfig.base) (Some sauce)
             config.(PizzaConfig.cheese) firstTopping)
          <$> differentSauces
    | None => []
    end in
  let sameSauce :=
    match config.(PizzaConfig.sauce) with
    | Some _ =>
        let differentBases :=
          take 2
            (filter (λ b, Some b.(CatalogItem.id)
                          ≠ idOf config.(PizzaConfig.base))
               d.(pizzaBases)) in
        (λ base,
           PizzaConfig.mk (Some base) config.(PizzaConfig.sauce)
             config.(PizzaConfig.cheese) firstTopping)
          <$> differentBases
    | None => []
    end in
  take 3 (sameBase ++ sameSauce).

End Recommendations.

(** *** [MemStorage]: one catalog map

    [getPizzaBase] and [updatePizzaBaseStock] of [MemStorage] and their
    siblings for the other three maps. *)

Module MemCatalog.

Definition getItem (m : gmap Z CatalogItem.t) (id : Z)
    : option CatalogItem.t :=
  m !! id.


End MemCatalog.

(** *** The cart of the client: [client/src/context/cart-context.tsx]

    The state [cartItems] with [addToCart], [removeFromCart] and
    [calculateCartTotal]; each of the first two is the function it hands to
    [setCartItems]. *)

Module Cart.

(** [CartItem]: a configuration with its price and an optional quantity. *)
Record CartItem := {
  config : PizzaConfig.t;
  totalPrice : Q;
  quantity : option Q
}.

Definition set_quantity (q : Q) (item : CartItem) : CartItem :=
  {| config := item.(config); totalPrice := item.(totalPrice);
     quantity := Some q |}.

Definition addToCart (prev : list CartItem) (item : CartItem)
    : list CartItem :=
  let itemWithQuantity := set_quantity 1 item in
  (prev ++ [itemWithQuantity])%list.

(** [prev.filter((_, i) => i !== index)] *)
Definition removeFromCart (prev : list CartItem) (index : Z)
    : list CartItem :=
  snd <$> filter (λ p, Z.of_nat p.1 ≠ index) (imap pair prev).

(** [item.quantity || 1] *)
Definition quantityOr1 (item : CartItem) : Q :=
  match item.(quantity) with
  | Some q => if Qeq_bool q 0 then 1 else q
  | None => 1
  end.

Definition calculateCartTotal (cartItems : list CartItem) : Q :=
  foldl (λ sum item, sum + item.(totalPrice) * quantityOr1 item)%Q 0%Q
    cartItems.

End Cart.

(** ** Vocabulary of the further statements *)

#[global] Instance component_eq_dec : EqDecision Component.
Proof. solve_decision. Defined.

(** The sequences run ahead of the ids in use. *)
Definition ordersFresh (d : Db) : Prop :=
  ∀ o, o ∈ d.(orders) → o.(Order.id) < d.(orders_seq).





(** No stock of the catalog is negative. *)
Definition stockNonNegative (d : Db) : Prop :=
  ∀ k c, c ∈ table k d → 0 ≤ c.(CatalogItem.stock).


(** ** Sample data *)

Module Sample.

Definition alice : User.t := User.mk 1 "alice" false 100 "bronze".
Definition bob : User.t := User.mk 2 "bob" false 5 "bronze".

Definition traditional : CatalogItem.t :=
  CatalogItem.mk 1 "Traditional" 199 20 20.
Definition thinCrust : CatalogItem.t :=
  CatalogItem.mk 2 "Thin Crust" 179 1 20.
Definition marinara : CatalogItem.t :=
  CatalogItem.mk 1 "Marinara" 49 45 20.
Definition mozzarella : CatalogItem.t :=
  CatalogItem.mk 1 "Mozzarella" 79 60 20.
Definition olives : CatalogItem.t :=
  CatalogItem.mk 1 "Olives" 39 30 20.

Definition order1 : Order.t :=
  Order.mk 1 1 "pending" 100 None "pending" "221B Baker Street"
    "5550100200" 0 0 1000 1000.
Definition order2 : Order.t :=
  Order.mk 2 1 "pending" 2 None "pending" "221B Baker Street"
    "5550100200" 0 0 1000 1000.

Definition save20 : Promotion.t :=
  Promotion.mk 1 "SAVE20" "percentage" 20 50 (Some 10) 0 0 5000 true.
Definition flat500 : Promotion.t :=
  Promotion.mk 2 "FLAT500" "fixed" 500 0 (Some 10) 3 0 5000 true.

Definition weekly : UserSubscription.t :=
  UserSubscription.mk 1 1 7 "active" 1000 8000.
Definition lapsed : UserSubscription.t :=
  UserSubscription.mk 2 1 7 "cancelled" 1000 8000.

Definition db : Db :=
  mkDb [alice; bob] [traditional; thinCrust] [marinara] [mozzarella]
    [olives] [order1; order2] 3 [] 1 [save20; flat500] [weekly; lapsed]
    [] 1.

Definition env : Env := mkEnv 2000 7.

Definition margherita : PizzaConfig.t :=
  PizzaConfig.mk (Some thinCrust) (Some marinara) (Some mozzarella)
    [olives].

(** One line as the checkout page sends it: the margherita on the thin
    crust, twice. *)
Definition line : OrderRoutes.CartLine :=
  OrderRoutes.Build_CartLine (jsonOfConfig margherita) (Json.Num 299)
    (Json.Num 2).

Definition cart : OrderRoutes.OrderBody :=
  OrderRoutes.Build_OrderBody (Json.Num 598) (Json.Str "221B Baker Street")
    (Json.Str "5550100200") [line].

(** The same cart sent to an address of three characters. *)
Definition shortAddressCart : OrderRoutes.OrderBody :=
  OrderRoutes.Build_OrderBody (Json.Num 598) (Json.Str "Elm")
    (Json.Str "5550100200") [line].

Definition catalog : MemStorage.t :=
  MemStorage.mk {[ 1 := traditional; 2 := thinCrust ]} {[ 1 := marinara ]}
    {[ 1 := mozzarella ]} {[ 1 := olives ]}.

End Sample.

(** Further sample data. *)
Module Fixture.

Definition readNote : Notification.t :=
  Notification.mk 1 1 "order" "Order Created" "Your order is in." true 100.
Definition unreadNote : Notification.t :=
  Notification.mk 2 1 "order" "Order Updated" "Your order is packed." false
    200.
Definition bobNote : Notification.t :=
  Notification.mk 3 2 "promotion" "Save" "Twenty percent off." false 150.

Definition home : UserAddress.t :=
  UserAddress.mk 1 1 "Home" "221B Baker Street" true.
Definition office : UserAddress.t :=
  UserAddress.mk 2 1 "Office" "10 Downing Street" false.
Definition bobHome : UserAddress.t :=
  UserAddress.mk 3 2 "Home" "4 Privet Drive" true.

Definition addresses : list UserAddress.t := [home; office; bobHome].

Definition weeklyPlan : SubscriptionPlan.t :=
  SubscriptionPlan.mk 1 "Weekly" 499 true.

(** The margherita of the sample data on the other base. *)
Definition similar : PizzaConfig.t :=
  PizzaConfig.mk (Some Sample.traditional) (Some Sample.marinara)
    (Some Sample.mozzarella) [Sample.olives].

(** A pizza that comes to the cart with a quantity of 5. *)
Definition cartLine : Cart.CartItem :=
  {| Cart.config := Sample.margherita; Cart.totalPrice := 299;
     Cart.quantity := Some 5%Q |}.

(** The sample database with three notifications. *)
Definition db : Db :=
  with_notifications [readNote; unreadNote; bobNote] 4 Sample.db.

(** Order 1 of the sample database, delivered. *)
Definition delivered : Db :=
  (OrderStorage.updateOrderStatus Sample.db 3000 1 "delivered").1.

(** Two promotions: number 1 is sold under the code "2", number 2 under
    "SPRING". *)
Definition crossed : Db :=
  with_promotions
    [Promotion.mk 1 "2" "fixed" 5 0 (Some 100) 7 0 5000 true;
     Promotion.mk 2 "SPRING" "fixed" 5 0 (Some 100) 0 0 5000 true]
    Sample.db.

End Fixture.

(** ** Facts about the query primitives *)

Section SqlFacts.
Context {A : Type}.
Implicit Types (P : A → Prop) (t : list A).

Lemma head_select_Some P `{!∀ r, Decision (P r)} t x :
  head (select P t) = Some x → x ∈ t ∧ P x.
Proof.
  intros Hhd. apply head_Some_elem_of in Hhd.
  apply list_elem_of_filter in Hhd. tauto.
Qed.

Lemma head_select_None P `{!∀ r, Decision (P r)} t :
  head (select P t) = None ↔ ∀ x, x ∈ t → ¬ P x.
Proof.
  unfold select. rewrite head_None. split.
  - intros Hnil x Hx HP. eapply filter_nil_not_elem_of; eauto.
  - intros Hall. induction t as [|r t IH]; [done|].
    rewrite filter_cons. case_decide as HP.
    + exfalso. apply (Hall r); [left | done].
    + apply IH. intros x Hx. apply Hall. by right.
Qed.

(** Rows addressed by a key column that the update leaves alone. *)
Context (key : A → Z) (f : A → A) (Hkey : ∀ r, key (f r) = key r).

Lemma head_returning t id :
  head (returning (λ r, key r = id) f t)
  = f <$> head (select (λ r, key r = id) t).
Proof. unfold returning, select. by destruct (filter _ t). Qed.

Lemma select_update t id i :
  select (λ r, key r = i) (update (λ r, key r = id) f t)
  = (λ r, if decide (key r = id) then f r else r)
      <$> select (λ r, key r = i) t.
Proof.
  unfold select, update. induction t as [|r t IH]; [done|].
  rewrite fmap_cons, !filter_cons, IH.
  destruct (decide (key r = id)) as [E|E].
  - rewrite Hkey. destruct (decide (key r = i)); [|done].
    by rewrite fmap_cons, decide_True.
  - destruct (decide (key r = i)); [|done].
    by rewrite fmap_cons, decide_False.
Qed.

Lemma head_select_update t id i :
  head (select (λ r, key r = i) (update (λ r, key r = id) f t))
  = (if decide (i = id) then f else λ r, r)
      <$> head (select (λ r, key r = i) t).
Proof.
  rewrite select_update.
  destruct (select (λ r, key r = i) t) as [|r l] eqn:E; [done|].
  assert (key r = i) as Hr.
  { assert (r ∈ select (λ r, key r = i) t) as Hin by (rewrite E; left).
    apply list_elem_of_filter in Hin. tauto. }
  simpl. repeat case_decide; congruence.
Qed.
End SqlFacts.

(** ** Promotion validation *)

Section Validation.
Import DatabaseStorage.

(** Two of the names in the [where] clause of [validatePromotion] are no
    columns of [promotions]; the table has [currentUses] and [maxUses]. *)
Lemma validColumns_undeclared :
  filter (λ name, name ∉ Schema.promotions) validColumns
  = ["usageCount"; "maxUsage"]
  ∧ "currentUses" ∈ Schema.promotions ∧ "maxUses" ∈ Schema.promotions.
Proof.
  split; [by vm_compute|].
  split; refine (bool_decide_unpack _ _); by vm_compute.
Qed.

(** So every call is refused by the database, whatever is stored. *)
Lemma validatePromotion_raises d now code orderAmount :
  validatePromotion d now code orderAmount = Drizzle.Raised.
Proof.
  unfold validatePromotion.
  replace (Drizzle.declared Schema.promotions validColumns) with false
    by (by vm_compute).
  done.
Qed.

(** C1 at a concrete call.  The stored promotion SAVE20 is active, has
    started and not ended at instant 2000, has been used 0 times of 10 and
    asks for an order of 50, so that for the code SAVE20 and an order of
    100 it meets every condition of the claim; [validatePromotion] does not
    return it: the call raises. *)
Theorem validatePromotion_raises_on_usable_promotion :
  Sample.save20 ∈ Sample.db.(promotions)
  ∧ Sample.save20.(Promotion.code) = "SAVE20"
  ∧ usable 2000 100 Sample.save20
  ∧ validatePromotion Sample.db 2000 "SAVE20" 100 = Drizzle.Raised
  ∧ validatePromotion Sample.db 2000 "SAVE20" 100
    ≠ Drizzle.Returned (Some Sample.save20).
Proof.
  split; [unfold Sample.db; simpl; left|].
  split; [reflexivity|].
  split.
  { unfold usable. simpl. repeat split; try lia.
    - exists 10. split; [reflexivity | lia].
    - vm_compute. discriminate. }
  rewrite validatePromotion_raises. split; [reflexivity | discriminate].
Qed.

End Validation.

(** The ownership test [row.userId !== req.user!.id] of a handler, when the
    context says the requester owns the row. *)
Ltac owner_passes :=
  rewrite bool_decide_eq_false_2 by (intros ?; contradiction).

(** ** Facts about the storage layer *)

Section StorageFacts.
Import DatabaseStorage.

Lemma getOrder_updateOrders d id f i :
  (∀ o, (f o).(Order.id) = o.(Order.id)) →
  getOrder (updateOrders d id f).1 i
  = (if decide (i = id) then f else λ o, o) <$> getOrder d i.
Proof. intros Hf. unfold getOrder. simpl. by apply head_select_update. Qed.

Lemma updateOrders_returning d id f :
  (updateOrders d id f).2 = f <$> getOrder d id.
Proof. apply head_returning. Qed.

Lemma getUserSubscription_update d id f i :
  (∀ s, (f s).(UserSubscription.id) = s.(UserSubscription.id)) →
  getUserSubscription (updateSubscriptions d id f).1 i
  = (if decide (i = id) then f else λ s, s) <$> getUserSubscription d i.
Proof.
  intros Hf. unfold getUserSubscription. simpl.
  by apply head_select_update.
Qed.

Lemma updateSubscriptions_returning d id f :
  (updateSubscriptions d id f).2 = f <$> getUserSubscription d id.
Proof. apply head_returning. Qed.

Lemma credited_nonneg balance points :
  0 ≤ balance → 0 ≤ points → credited balance points = balance + points.
Proof. intros. unfold credited. rewrite bool_decide_eq_true_2; lia. Qed.

Lemma getUser_updateUserLoyaltyPoints d id points user :
  getUser d id = Some user →
  getUser (updateUserLoyaltyPoints d id points).1 id
  = Some (User.set_loyaltyPoints
            (credited user.(User.loyaltyPoints) points) user)
  ∧ (updateUserLoyaltyPoints d id points).2
    = Some (User.set_loyaltyPoints
              (credited user.(User.loyaltyPoints) points) user).
Proof.
  intros Hu. unfold updateUserLoyaltyPoints. rewrite Hu. simpl. split.
  - unfold getUser in *. simpl.
    rewrite (head_select_update User.id); [|done].
    rewrite Hu. simpl. by rewrite decide_True.
  - rewrite (head_returning User.id). unfold getUser in Hu. by rewrite Hu.
Qed.

Lemma updateUserLoyaltyPoints_frame d id points :
  let d' := (updateUserLoyaltyPoints d id points).1 in
  d'.(orders) = d.(orders) ∧ d'.(promotions) = d.(promotions)
  ∧ d'.(notifications) = d.(notifications).
Proof. unfold updateUserLoyaltyPoints. by destruct (getUser d id). Qed.

Lemma getItem_setItemStock t id v i :
  getItem (setItemStock t id v) i
  = (if decide (i = id) then CatalogItem.set_stock v else λ c, c)
      <$> getItem t i.
Proof. unfold getItem, setItemStock. by apply head_select_update. Qed.

End StorageFacts.

(** ** Discount computation *)

Section Discount.
Import DatabaseStorage PromotionRoutes.

(** The arithmetic both promotion handlers hold for a promotion they have
    been handed: [A * v / 100] for the type [percentage] and [v] for any
    other, at most the amount [A], so that [A] less the discount is not
    negative. *)
Lemma discountFor_spec (p : Promotion.t) (A : Q) :
  let v := p.(Promotion.discountValue) in
  (p.(Promotion.discountType) = "percentage"
   → discountFor p A = Qmin (A * v / 100) A)
  ∧ (p.(Promotion.discountType) ≠ "percentage" → discountFor p A = Qmin v A)
  ∧ (0 <= A - discountFor p A)%Q.
Proof.
  intros v. unfold discountFor, Js.min. fold v.
  split; [intros ->; by rewrite bool_decide_eq_true_2|].
  split; [intros ?; by rewrite bool_decide_eq_false_2|].
  unfold Qminus. apply (proj1 (Qle_minus_iff _ _)). apply Q.le_min_r.
Qed.

(** POST /api/promotions/validate never reaches that arithmetic: a body
    with a code and an amount is answered 500, every other body 400. *)
Lemma validate_never_quotes d env req :
  let res := validate d env req in
  res.1 = d
  ∧ (res.2.(Http.status) = 400 ∨ res.2.(Http.status) = 500)
  ∧ (req.(code) ≠ "" → ¬ (req.(orderAmount) == 0)%Q →
     res.2 = Http.fail 500 "Error validating promotion").
Proof.
  unfold validate. rewrite validatePromotion_raises.
  destruct (bool_decide (code req = "") || Qeq_bool (orderAmount req) 0)
    eqn:E; simpl.
  - split; [done|]. split; [by left|]. intros Hcode Hamount.
    apply orb_true_iff in E as [E|E].
    + by apply bool_decide_eq_true in E.
    + by apply Qeq_bool_iff in E.
  - split; [done|]. split; [by right | done].
Qed.

(** C4 at the two requests of the claim.  With the promotions SAVE20 (20
    percent, usable at instant 2000 for an order of 100) and FLAT500 (a
    fixed 500) stored, the claim has POST /api/promotions/validate report a
    discount of 20 and a final amount of 80 for the first and 100 and 0 for
    the second.  The arithmetic of the handler gives these numbers for the
    two promotions, but the handler answers 500 to both requests and
    reports nothing. *)
Theorem validate_answers_500 :
  usable 2000 100 Sample.save20
  ∧ (discountFor Sample.save20 100 == 20)%Q
  ∧ (100 - discountFor Sample.save20 100 == 80)%Q
  ∧ (discountFor Sample.flat500 100 == 100)%Q
  ∧ (100 - discountFor Sample.flat500 100 == 0)%Q
  ∧ validate Sample.db Sample.env (Build_ValidateBody "SAVE20" 100)
    = (Sample.db, Http.fail 500 "Error validating promotion")
  ∧ validate Sample.db Sample.env (Build_ValidateBody "FLAT500" 100)
    = (Sample.db, Http.fail 500 "Error validating promotion").
Proof.
  split.
  { unfold usable. simpl. repeat split; try lia.
    - exists 10. split; [reflexivity | lia].
    - vm_compute. discriminate. }
  repeat split; by vm_compute.
Qed.

End Discount.

(** ** Payment *)

Section Payment.
Import DatabaseStorage PaymentRoutes.





End Payment.

(** ** Subscription lifecycle *)

Section Subscriptions.
Import DatabaseStorage SubscriptionRoutes.

(** C9.  Pausing an existing subscription and then resuming it leaves it
    stored with status [active] and with the [planId] and [userId] it had
    (every column but the status is as before). *)
Theorem pause_resume_roundtrip (d : Db) (id : Z) (s : UserSubscription.t) :
  getUserSubscription d id = Some s →
  let d1 := (pauseUserSubscription d id).1 in
  let d2 := (resumeUserSubscription d1 id).1 in
  ∃ s', getUserSubscription d2 id = Some s'
    ∧ s' = UserSubscription.set_status "active" s
    ∧ s'.(UserSubscription.status) = "active"
    ∧ s'.(UserSubscription.planId) = s.(UserSubscription.planId)
    ∧ s'.(UserSubscription.userId) = s.(UserSubscription.userId).
Proof.
  intros Hs d1 d2. subst d1 d2.
  unfold pauseUserSubscription, resumeUserSubscription.
  rewrite !getUserSubscription_update by done.
  rewrite Hs. simpl. rewrite !decide_True by done.
  eexists. split; [reflexivity|]. by destruct s.
Qed.

Lemma pause_resume_roundtrip_witness :
  ∃ s', getUserSubscription
          (resumeUserSubscription
             (pauseUserSubscription Sample.db 1).1 1).1 1 = Some s'
    ∧ s'.(UserSubscription.status) = "active".
Proof.
  destruct (pause_resume_roundtrip Sample.db 1 Sample.weekly eq_refl)
    as (s' & Hget & _ & Hstatus & _).
  exists s'. split; [exact Hget | exact Hstatus].
Defined.

Lemma store_status (a : Action) d env id s :
  getUserSubscription d id = Some s →
  ∃ s', getUserSubscription (store a d env id).1 id = Some s'
    ∧ (store a d env id).2 = Some s'
    ∧ s'.(UserSubscription.status) = written a
    ∧ s'.(UserSubscription.userId) = s.(UserSubscription.userId)
    ∧ s'.(UserSubscription.planId) = s.(UserSubscription.planId).
Proof.
  intros Hs.
  destruct a;
    unfold store, written, cancelUserSubscription, pauseUserSubscription,
      resumeUserSubscription;
    rewrite getUserSubscription_update, updateSubscriptions_returning, Hs
      by done;
    simpl; rewrite decide_True by done; eexists; split; done.
Qed.

Lemma createNotification_subscriptions d now n :
  (createNotification d now n).1.(userSubscriptions)
  = d.(userSubscriptions).
Proof. done. Qed.

(** C8, as the code has it.  The three operations write the status
    whatever it was: on a subscription whose status is [cancelled], a
    cancel request by its owner leaves the status [cancelled], a pause
    request sets it to [paused] and a resume request sets it to [active];
    each is answered 200. *)
Theorem cancelled_rewritten (a : Action) (d : Db) (env : Env) (uid id : Z)
    (s : UserSubscription.t) :
  getUserSubscription d id = Some s →
  s.(UserSubscription.userId) = uid →
  s.(UserSubscription.status) = "cancelled" →
  (handle a d env uid id).2.(Http.status) = 200
  ∧ ∃ s', getUserSubscription (handle a d env uid id).1 id = Some s'
      ∧ s'.(UserSubscription.status) = written a.
Proof.
  intros Hs Howner _. unfold handle. rewrite Hs.
  owner_passes.
  destruct (store_status a d env id s Hs) as (s' & Hget & _ & Hst & _).
  destruct (store a d env id) as [d1 updated] eqn:E.
  destruct (createNotification d1 (now env) (notice a uid))
    as [d2 n] eqn:E2.
  simpl. split; [done|]. exists s'. split; [|done].
  unfold getUserSubscription in *.
  replace d2 with (createNotification d1 (now env) (notice a uid)).1
    by (by rewrite E2).
  by rewrite createNotification_subscriptions.
Qed.

Lemma cancelled_rewritten_witness :
  (handle Cancel Sample.db Sample.env 1 2).2.(Http.status) = 200.
Proof.
  apply (cancelled_rewritten Cancel Sample.db Sample.env 1 2 Sample.lapsed);
    reflexivity.
Defined.

(** C8 as worded fails: after a resume request on a cancelled subscription
    the stored status is [active]. *)
Lemma cancelled_not_terminal :
  getUserSubscription Sample.db 2 = Some Sample.lapsed
  ∧ Sample.lapsed.(UserSubscription.status) = "cancelled"
  ∧ ∃ s', getUserSubscription
            (handle Resume Sample.db Sample.env 1 2).1 2 = Some s'
      ∧ s'.(UserSubscription.status) = "active"
      ∧ s'.(UserSubscription.status) ≠ "cancelled".
Proof.
  split; [reflexivity|]. split; [reflexivity|].
  eexists. split; [vm_compute; reflexivity|]. split; [reflexivity|].
  simpl. discriminate.
Qed.

End Subscriptions.

(** ** Loyalty redemption *)

Section Redemption.
Import DatabaseStorage PromotionRoutes.

(** What [updateOrderLoyaltyDiscount] writes: the points and the instant.
    The discount it is handed goes nowhere. *)
Lemma updateOrderLoyaltyDiscount_writes d now id discount points :
  updateOrderLoyaltyDiscount d now id discount points
  = updateOrders d id
      (λ o, Order.set_updatedAt now
              (Order.set_loyaltyPointsRedeemed points o)).
Proof. reflexivity. Qed.

(** A request for more points than the balance is answered 400 and changes
    nothing. *)
Lemma redeem_insufficient d env uid req points orderId user :
  redeemSchema req = Some (points, orderId) →
  getUser d uid = Some user →
  user.(User.loyaltyPoints) < points →
  redeem d env uid req = (d, Http.fail 400 "Insufficient loyalty points").
Proof.
  intros Hreq Hu Hlt. unfold redeem. rewrite Hreq, Hu.
  by rewrite bool_decide_eq_true_2.
Qed.

(** An accepted request reports the discount [min (points * 0.1) total],
    records the points on the order and hands [balance - points] to
    [updateUserLoyaltyPoints], which adds it to the balance: the balance
    afterwards is [balance + (balance - points)]. *)
Lemma redeem_accepted d env uid req points orderId user order :
  redeemSchema req = Some (points, orderId) →
  getUser d uid = Some user →
  points ≤ user.(User.loyaltyPoints) →
  getOrder d orderId = Some order →
  order.(Order.userId) = uid →
  let d' := (redeem d env uid req).1 in
  let balance := user.(User.loyaltyPoints) in
  let discount :=
    Qmin (inject_Z points * (1 # 10)) order.(Order.totalAmount) in
  let updated :=
    Order.set_updatedAt env.(now)
      (Order.set_loyaltyPointsRedeemed points order) in
  (redeem d env uid req).2
  = Http.mk 200
      (Http.PointsRedeemed updated discount
         (order.(Order.totalAmount) - discount)%Q
         (credited balance (balance - points)))
  ∧ getOrder d' orderId = Some updated
  ∧ getUser d' uid
    = Some (User.set_loyaltyPoints
              (credited balance (balance - points)) user).
Proof.
  intros Hreq Hu Hle Ho Howner d' balance discount updated. subst d'.
  unfold redeem. rewrite Hreq, Hu.
  rewrite bool_decide_eq_false_2 by lia. rewrite Ho.
  owner_passes.
  unfold Js.min. fold discount. fold balance.
  rewrite updateOrderLoyaltyDiscount_writes.
  set (f := λ o, Order.set_updatedAt (now env)
                   (Order.set_loyaltyPointsRedeemed points o)).
  pose proof (getOrder_updateOrders d orderId f orderId) as Hget.
  pose proof (updateOrders_returning d orderId f) as Hret.
  destruct (updateOrders d orderId f) as [d1 updatedOrder] eqn:E1.
  simpl in Hget, Hret. rewrite Ho in Hget, Hret. simpl in Hget, Hret.
  rewrite decide_True in Hget by done. specialize (Hget ltac:(done)).
  assert (getUser d1 uid = Some user) as Hu1.
  { replace d1 with (updateOrders d orderId f).1 by (by rewrite E1).
    exact Hu. }
  destruct (getUser_updateUserLoyaltyPoints d1 uid (balance - points)
              user Hu1) as [Hgu Hru].
  destruct (updateUserLoyaltyPoints_frame d1 uid (balance - points))
    as (Hfo & _).
  destruct (updateUserLoyaltyPoints d1 uid (balance - points))
    as [d2 updatedUser] eqn:E2.
  simpl in Hgu, Hru, Hfo.
  destruct (createNotification d2 (now env) _) as [d3 n] eqn:E3.
  assert (d3.(users) = d2.(users) ∧ d3.(orders) = d2.(orders)) as [Hu3 Ho3].
  { unfold createNotification in E3. by inversion E3. }
  rewrite Hret, Hru. simpl. split; [done|].
  unfold getOrder, getUser in *. rewrite Hu3, Ho3, Hfo. by split.
Qed.

(** C2 at a concrete request.  Alice holds 100 points and redeems 30 on
    her order of 100: the request is accepted and reports the discount
    [min (30 * 0.1) 100 = 3] and the final amount 97.  The order
    afterwards records the 30 points; the discount is stored nowhere, the
    [discountAmount] of the order is still 0.  Her balance afterwards is
    170, not 70. *)
Theorem redeem_balance_not_deducted :
  let req := Build_RedeemBody 30 1 in
  let d' := (redeem Sample.db Sample.env 1 req).1 in
  User.loyaltyPoints <$> getUser Sample.db 1 = Some 100
  ∧ (∃ o discount final,
       (redeem Sample.db Sample.env 1 req).2
       = Http.mk 200 (Http.PointsRedeemed o discount final 170)
       ∧ (discount == 3)%Q ∧ (final == 97)%Q)
  ∧ (∃ o, getOrder d' 1 = Some o
          ∧ o.(Order.loyaltyPointsRedeemed) = 30
          ∧ (o.(Order.discountAmount) == 0)%Q
          ∧ (o.(Order.totalAmount) == 100)%Q)
  ∧ User.loyaltyPoints <$> getUser d' 1 = Some 170
  ∧ User.loyaltyPoints <$> getUser d' 1 ≠ Some (100 - 30).
Proof.
  vm_compute. split; [reflexivity|]. split.
  { eexists _, _, _. split; [reflexivity|]. split; reflexivity. }
  split.
  { eexists. split; [reflexivity|]. repeat split; reflexivity. }
  split; [reflexivity | discriminate].
Qed.

End Redemption.

(** ** Promotion application *)

Section Application.
Import DatabaseStorage PromotionRoutes.

(** POST /api/orders/:id/apply-promotion never answers 200 and never
    writes: past its own checks it calls [validatePromotion], which
    raises. *)
Lemma applyPromotion_never_applies d env uid orderId code :
  let res := applyPromotion d env uid orderId code in
  res.1 = d ∧ res.2.(Http.status) ≠ 200
  ∧ (code ≠ "" →
     ∀ order, getOrder d orderId = Some order →
       order.(Order.userId) = uid →
       res.2 = Http.fail 500 "Error applying promotion").
Proof.
  unfold applyPromotion. case_bool_decide as Hcode; [by repeat split|].
  destruct (getOrder d orderId) as [order|]; [|by repeat split].
  case_bool_decide as Howner.
  { split; [done|]. split; [done|]. intros _ o [= <-] Huid. done. }
  rewrite validatePromotion_raises. by repeat split.
Qed.

(** C3 at a concrete request.  Alice owns order 1, of 100, and SAVE20 is
    usable for it at instant 2000 and has been used 0 times.  Her request
    to apply SAVE20 to the order is answered 500; nothing is written: the
    discount of the order is still 0 and the promotion has still been used
    0 times, not once. *)
Theorem applyPromotion_answers_500 :
  let res := applyPromotion Sample.db Sample.env 1 1 "SAVE20" in
  getOrder Sample.db 1 = Some Sample.order1
  ∧ Sample.order1.(Order.userId) = 1
  ∧ getPromotionByCode Sample.db "SAVE20" = Some Sample.save20
  ∧ usable 2000 Sample.order1.(Order.totalAmount) Sample.save20
  ∧ res.2 = Http.fail 500 "Error applying promotion"
  ∧ res.1 = Sample.db
  ∧ Order.discountAmount <$> getOrder res.1 1 = Some 0%Q
  ∧ Promotion.currentUses <$> getPromotionByCode res.1 "SAVE20" = Some 0
  ∧ Promotion.currentUses <$> getPromotionByCode res.1 "SAVE20"
    ≠ Some (0 + 1).
Proof.
  split; [reflexivity|]. split; [reflexivity|]. split; [reflexivity|].
  split.
  { unfold usable. simpl. repeat split; try lia.
    - exists 10. split; [reflexivity | lia].
    - vm_compute. discriminate. }
  vm_compute. repeat split; try reflexivity. discriminate.
Qed.

End Application.

(** ** Inventory status *)

Section Inventory.

Lemma database_lowStock_iff (d : Db) (c : CatalogItem.t) :
  c ∈ DatabaseStorage.getLowStockItems d
  ↔ (∃ k, c ∈ table k d)
    ∧ c.(CatalogItem.stock) < c.(CatalogItem.threshold).
Proof.
  unfold DatabaseStorage.getLowStockItems, select.
  rewrite !elem_of_app, !list_elem_of_filter.
  unfold DatabaseStorage.lowStock. split.
  - intros [[? ?]|[[? ?]|[[? ?]|[? ?]]]]; split; try done;
      [by exists Base | by exists Sauce | by exists Cheese
      | by exists Topping].
  - intros [[[] ?] ?]; simpl in *; tauto.
Qed.

Lemma memory_lowStock_iff (s : MemStorage.t) (c : CatalogItem.t) :
  c ∈ MemStorage.getLowStockItems s
  ↔ (∃ i, s.(MemStorage.pizzaBases) !! i = Some c
          ∨ s.(MemStorage.pizzaSauces) !! i = Some c
          ∨ s.(MemStorage.pizzaCheeses) !! i = Some c
          ∨ s.(MemStorage.pizzaToppings) !! i = Some c)
    ∧ c.(CatalogItem.stock) ≤ c.(CatalogItem.threshold).
Proof.
  assert (∀ m : gmap Z CatalogItem.t,
            c ∈ MemStorage.values m ↔ ∃ i, m !! i = Some c) as Hval.
  { intros m. unfold MemStorage.values. rewrite list_elem_of_fmap. split.
    - intros ([i x] & -> & Hin). exists i. by apply elem_of_map_to_list.
    - intros [i Hi]. exists (i, c). split; [done|].
      by apply elem_of_map_to_list. }
  unfold MemStorage.getLowStockItems.
  rewrite !elem_of_app, !list_elem_of_filter, !Hval.
  unfold MemStorage.lowStock. split.
  - intros [[? [i ?]]|[[? [i ?]]|[[? [i ?]]|[? [i ?]]]]];
      (split; [exists i; tauto | done]).
  - intros [[i [?|[?|[?|?]]]] ?];
      [left | right; left | right; right; left | right; right; right];
      (split; [done | by exists i]).
Qed.

(** C7 at a concrete catalog.  The Traditional base has stock 20 and
    threshold 20.  [DatabaseStorage.getLowStockItems] returns the Thin
    Crust base only and leaves Traditional out, while
    [MemStorage.getLowStockItems] on the same catalog includes it. *)
Theorem database_lowStock_excludes_threshold :
  Sample.traditional ∈ Sample.db.(pizzaBases)
  ∧ CatalogItem.stock Sample.traditional
    = CatalogItem.threshold Sample.traditional
  ∧ DatabaseStorage.getLowStockItems Sample.db = [Sample.thinCrust]
  ∧ (Sample.traditional ∉ DatabaseStorage.getLowStockItems Sample.db)
  ∧ Sample.traditional ∈ MemStorage.getLowStockItems Sample.catalog.
Proof.
  split; [by left|]. split; [done|]. split; [by vm_compute|]. split.
  - rewrite database_lowStock_iff. intros [_ Hlt]. simpl in Hlt. lia.
  - apply memory_lowStock_iff. split; [|done].
    exists 1. left. by vm_compute.
Qed.

End Inventory.

(** ** Order placement *)

Section Placement.
Import DatabaseStorage OrderRoutes.

(** The handler of [routes/orders.ts] always answers, so nothing declared
    for the path after it is ever called. *)
Lemma postOrders_first rule later d env uid req :
  postOrders rule later d env uid req
  = ((create rule d env uid req).1, Some (create rule d env uid req).2).
Proof.
  unfold postOrders, Express.answering. simpl.
  by destruct (create rule d env uid req).
Qed.

(** The loop over the lines writes order items only. *)
Lemma createOrderItems_frame rule orderId items : ∀ d,
  let d' := (createOrderItems rule d orderId items).1 in
  (∀ k, table k d' = table k d) ∧ d'.(orders) = d.(orders)
  ∧ d'.(orders_seq) = d.(orders_seq) ∧ d'.(users) = d.(users)
  ∧ d'.(promotions) = d.(promotions)
  ∧ d'.(notifications) = d.(notifications)
  ∧ d'.(notifications_seq) = d.(notifications_seq).
Proof.
  induction items as [|item rest IH]; intros d; [done|].
  cbn [createOrderItems].
  destruct (insertOrderItemSchema rule item) as [data|]; [|apply IH].
  unfold Bounded.createOrderItem.
  destruct (Bounded.takesItem _ _); [|done].
  unfold createOrderItem. cbn beta iota zeta.
  match goal with |- context [createOrderItems rule ?d1 orderId rest] =>
    destruct (IH d1) as (Ht & Ho & Hs & Hu & Hp & Hn & Hns)
  end.
  repeat split; try done; intros k; rewrite Ht; by destruct k.
Qed.

(** Whatever the request and whatever the answer, the handler leaves the
    four catalog tables as they were: it adjusts no stock. *)
Lemma create_leaves_catalog rule d env uid req (k : Component) :
  table k (create rule d env uid req).1 = table k d.
Proof.
  unfold create. destruct (insertOrderSchema uid req) as [data|]; [|done].
  destruct (createOrder d (now env) data) as [d1 newOrder] eqn:E1.
  assert (table k d1 = table k d) as <-.
  { unfold createOrder in E1. inversion E1. by destruct k. }
  destruct (createOrderItems_frame rule (Order.id newOrder) (items req) d1)
    as (Ht & _).
  destruct (createOrderItems rule d1 _ _) as [d2 [|]]; simpl in *.
  - rewrite <- Ht. by destruct k.
  - apply Ht.
Qed.

(** [insertOrderSchema] asks for a number and two strings and for nothing
    about their length. *)
Lemma insertOrderSchema_strings uid total address contact lines :
  insertOrderSchema uid
    (Build_OrderBody (Json.Num total) (Json.Str address) (Json.Str contact)
       lines)
  = Some (InsertOrder.mk uid total address contact).
Proof. reflexivity. Qed.

(** C5 at a concrete request.  The thin crust, row 2 of the bases, has a
    stock of 1.  Alice orders the margherita on the thin crust twice; the
    request is answered 201 with the order and its one item.  The claim
    has the stock of the thin crust at [1 - 2] afterwards; it is 1, and no
    row of the catalog has changed.  This holds whatever [registerRoutes]
    declares for the path after [registerOrderRoutes], its own handler
    with the stock loop included. *)
Theorem postOrders_leaves_stock (rule : DrizzleZod.IntegerRule)
    (later : list (Express.Handler OrderBody)) :
  let res := postOrders rule later Sample.db Sample.env 1 Sample.cart in
  stockOf Base Sample.db 2 = Some 1
  ∧ Sample.line.(pizzaDetails) = jsonOfConfig Sample.margherita
  ∧ Sample.margherita.(PizzaConfig.base) = Some Sample.thinCrust
  ∧ Sample.line.(quantity) = Json.Num 2
  ∧ (∃ order item,
       res.2 = Some (Http.mk 201 (Http.OrderWithItems order [item]))
       ∧ item.(OrderItem.pizzaDetails) = jsonOfConfig Sample.margherita
       ∧ item.(OrderItem.quantity) = 2)
  ∧ stockOf Base res.1 2 = Some 1
  ∧ stockOf Base res.1 2 ≠ Some (1 - 2)
  ∧ ∀ k, table k res.1 = table k Sample.db.
Proof.
  intros res. subst res. rewrite postOrders_first. simpl.
  split; [reflexivity|]. split; [reflexivity|]. split; [reflexivity|].
  split; [reflexivity|]. split.
  { destruct rule; eexists _, _; (split; [reflexivity|]);
      split; reflexivity. }
  assert (∀ k, table k (create rule Sample.db Sample.env 1 Sample.cart).1
               = table k Sample.db) as Hcat
    by (intros k; apply create_leaves_catalog).
  unfold stockOf. rewrite (Hcat Base).
  split; [reflexivity|]. split; [discriminate | exact Hcat].
Qed.

(** C6 at a concrete request.  The same order sent to the address "Elm",
    of three characters, is answered 201: the order is stored under a new
    id with that address, and its item with it. *)
Theorem postOrders_accepts_short_address (rule : DrizzleZod.IntegerRule)
    (later : list (Express.Handler OrderBody)) :
  let res :=
    postOrders rule later Sample.db Sample.env 1 Sample.shortAddressCart in
  Sample.shortAddressCart.(deliveryAddress) = Json.Str "Elm"
  ∧ (Js.length "Elm" < 10)%nat
  ∧ ∃ order item,
      res.2 = Some (Http.mk 201 (Http.OrderWithItems order [item]))
      ∧ order.(Order.deliveryAddress) = "Elm"
      ∧ getOrder Sample.db order.(Order.id) = None
      ∧ getOrder res.1 order.(Order.id) = Some order
      ∧ getOrderItems res.1 order.(Order.id) = [item].
Proof.
  intros res. subst res. rewrite postOrders_first. simpl.
  split; [reflexivity|]. split; [simpl; lia|].
  destruct rule; eexists _, _; (split; [reflexivity|]);
    repeat split; reflexivity.
Qed.

End Placement.

(** ** More facts about the query primitives *)

Section SqlMoreFacts.
Context {A : Type}.
Implicit Types (P Q : A → Prop) (t : list A).

Lemma elem_of_update Q `{!∀ r, Decision (Q r)} (f : A → A) t x :
  x ∈ update Q f t
  ↔ (∃ r, r ∈ t ∧ Q r ∧ x = f r) ∨ (x ∈ t ∧ ¬ Q x).
Proof.
  unfold update. rewrite list_elem_of_fmap. split.
  - intros (r & -> & Hr). case_decide; [left; eauto | right; eauto].
  - intros [(r & Hr & HQ & ->)|[Hx HQ]].
    + exists r. by rewrite decide_True.
    + exists x. by rewrite decide_False.
Qed.

Lemma update_none Q `{!∀ r, Decision (Q r)} (f : A → A) t :
  (∀ r, r ∈ t → ¬ Q r) → update Q f t = t.
Proof.
  intros Hnone. unfold update. induction t as [|r t IH]; [done|].
  rewrite fmap_cons, IH.
  - rewrite decide_False; [done|]. apply Hnone. by left.
  - intros x Hx. apply Hnone. by right.
Qed.

Lemma rowCount_positive P `{!∀ r, Decision (P r)} t :
  (0 < rowCount P t)%nat ↔ ∃ r, r ∈ t ∧ P r.
Proof.
  unfold rowCount. split.
  - destruct (filter P t) as [|r l] eqn:E; [simpl; lia|]. intros _.
    assert (r ∈ filter P t) as Hin by (rewrite E; left).
    apply list_elem_of_filter in Hin. exists r. tauto.
  - intros (r & Hr & HP).
    assert (r ∈ filter P t) as Hin by (by apply list_elem_of_filter).
    destruct (filter P t); [by apply elem_of_nil in Hin | simpl; lia].
Qed.

Lemma elem_of_delete P `{!∀ r, Decision (P r)} t x :
  x ∈ delete P t ↔ x ∈ t ∧ ¬ P x.
Proof. unfold delete. rewrite list_elem_of_filter. tauto. Qed.

Lemma select_all P `{!∀ r, Decision (P r)} t :
  (∀ r, r ∈ t → P r) → select P t = t.
Proof.
  intros Hall. unfold select. induction t as [|r t IH]; [done|].
  rewrite filter_cons, decide_True by (apply Hall; by left).
  f_equal. apply IH. intros x Hx. apply Hall. by right.
Qed.

Lemma select_none P `{!∀ r, Decision (P r)} t :
  (∀ r, r ∈ t → ¬ P r) → select P t = [].
Proof.
  intros Hnone. unfold select. induction t as [|r t IH]; [done|].
  rewrite filter_cons, decide_False by (apply Hnone; by left).
  apply IH. intros x Hx. apply Hnone. by right.
Qed.

Lemma elem_of_take_1 (n : nat) t x : x ∈ take n t → x ∈ t.
Proof.
  rewrite elem_of_take. intros (i & Hi & _).
  apply list_elem_of_lookup. eauto.
Qed.

End SqlMoreFacts.

(** ** The loyalty balance *)

Section Balance.
Import DatabaseStorage.

Lemma credited_max balance points :
  credited balance points = Z.max 0 (balance + points).
Proof. unfold credited. case_bool_decide; lia. Qed.

Lemma getUser_updateUserLoyaltyPoints_other d id points other :
  other ≠ id →
  getUser (updateUserLoyaltyPoints d id points).1 other = getUser d other.
Proof.
  intros Hne. unfold updateUserLoyaltyPoints.
  destruct (getUser d id) as [user|]; [|done].
  unfold getUser. simpl.
  rewrite (head_select_update User.id) by done.
  rewrite decide_False by done. by destruct (head _).
Qed.

(** X1.  [updateUserLoyaltyPoints] adds [points] to the balance of the user
    and stores the sum, or zero when the sum is negative, so the stored
    balance is never negative; name and tier of the user and the rows of
    all other users stay.  When the sum does not fit the 32-bit column, or
    [id] does not, the call raises and nothing is stored.  For an unknown
    user nothing is written and nothing is returned. *)
Theorem updateUserLoyaltyPoints_clamps (d : Db) (id points : Z) :
  (¬ Int4.fits id →
   Bounded.updateUserLoyaltyPoints d id points = Drizzle.Raised)
  ∧ (Int4.fits id → getUser d id = None →
     Bounded.updateUserLoyaltyPoints d id points = Drizzle.Returned (d, None))
  ∧ (∀ user, Int4.fits id → getUser d id = Some user →
       let stored := Z.max 0 (user.(User.loyaltyPoints) + points) in
       (2147483647 < stored →
        Bounded.updateUserLoyaltyPoints d id points = Drizzle.Raised)
       ∧ (stored ≤ 2147483647 →
          ∃ d' user',
            Bounded.updateUserLoyaltyPoints d id points
            = Drizzle.Returned (d', Some user')
            ∧ getUser d' id = Some user'
            ∧ user'.(User.loyaltyPoints) = stored
            ∧ 0 ≤ user'.(User.loyaltyPoints)
            ∧ user'.(User.username) = user.(User.username)
            ∧ user'.(User.membershipTier) = user.(User.membershipTier)
            ∧ ∀ other, other ≠ id → getUser d' other = getUser d other)).
Proof.
  unfold Bounded.updateUserLoyaltyPoints. split; [|split].
  - intros Hid. by rewrite decide_False.
  - intros Hid Hnone. by rewrite decide_True, Hnone.
  - intros user Hid Hu.
    set (stored := Z.max 0 (User.loyaltyPoints user + points)).
    rewrite decide_True, Hu by done.
    fold (credited (User.loyaltyPoints user) points).
    rewrite credited_max. fold stored. split.
    + intros Hbig. rewrite decide_False; [done|]. unfold Int4.fits. lia.
    + intros Hfits. rewrite decide_True by (unfold Int4.fits; lia).
      destruct (getUser_updateUserLoyaltyPoints d id points user Hu)
        as [Hget Hret].
      pose proof (getUser_updateUserLoyaltyPoints_other d id points)
        as Hother.
      destruct (updateUserLoyaltyPoints d id points) as [d' updated].
      simpl in *. subst updated.
      eexists _, _. split; [reflexivity|]. split; [exact Hget|].
      cbn [User.loyaltyPoints User.set_loyaltyPoints User.username
           User.membershipTier].
      rewrite credited_max. fold stored. repeat split; try lia.
      exact Hother.
Qed.

Lemma updateUserLoyaltyPoints_clamps_witness :
  Bounded.updateUserLoyaltyPoints Sample.db 1 2147483647 = Drizzle.Raised.
Proof.
  destruct (updateUserLoyaltyPoints_clamps Sample.db 1 2147483647)
    as (_ & _ & Hknown).
  destruct (Hknown Sample.alice) as [Hraised _];
    [unfold Int4.fits; lia | reflexivity |].
  apply Hraised. simpl. lia.
Defined.

End Balance.

(** ** Requests that are turned down *)

Section Rejections.
Import DatabaseStorage.

Lemma redeem_rejected d env uid req :
  (PromotionRoutes.redeem d env uid req).2.(Http.status) ≠ 200 →
  (PromotionRoutes.redeem d env uid req).1 = d.
Proof.
  unfold PromotionRoutes.redeem.
  destruct (PromotionRoutes.redeemSchema req) as [[points orderId]|];
    [|done].
  destruct (getUser d uid) as [user|] eqn:Hu; [|done].
  case_bool_decide; [done|].
  destruct (getOrder d orderId) as [order|] eqn:Ho; [|done].
  case_bool_decide; [done|].
  unfold updateOrderLoyaltyDiscount.
  match goal with |- context [updateOrders d orderId ?f] =>
    pose proof (updateOrders_returning d orderId f) as Hret;
    assert (getUser (updateOrders d orderId f).1 uid = Some user)
      as Hu1 by exact Hu;
    destruct (updateOrders d orderId f) as [d1 updatedOrder]
  end.
  simpl in Hret, Hu1. rewrite Ho in Hret. subst updatedOrder.
  match goal with |- context [updateUserLoyaltyPoints d1 uid ?p] =>
    destruct (getUser_updateUserLoyaltyPoints d1 uid p user Hu1)
      as [_ Hru];
    destruct (updateUserLoyaltyPoints d1 uid p) as [d2 updatedUser]
  end.
  simpl in Hru. subst updatedUser.
  destruct (createNotification d2 _ _) as [d3 ?]. simpl. done.
Qed.

Lemma processPayment_rejected d env uid req :
  (PaymentRoutes.processPayment d env uid req).2.(Http.status) ≠ 200 →
  (PaymentRoutes.processPayment d env uid req).1 = d.
Proof.
  unfold PaymentRoutes.processPayment.
  destruct (PaymentRoutes.paymentSchema req) as [data|]; [|done].
  destruct (getOrder d _) as [order|]; [|done].
  case_bool_decide; [done|].
  destruct (Js.strictNe _ _); [done|].
  destruct (updateOrderPayment _ _ _ _ _) as [d1 ?].
  destruct (updateUserLoyaltyPoints d1 _ _) as [d2 ?]. simpl. done.
Qed.

Lemma handle_rejected a d env uid id :
  (SubscriptionRoutes.handle a d env uid id).2.(Http.status) ≠ 200 →
  (SubscriptionRoutes.handle a d env uid id).1 = d.
Proof.
  unfold SubscriptionRoutes.handle.
  destruct (getUserSubscription d id) as [s|]; [|done].
  case_bool_decide; [done|].
  destruct (SubscriptionRoutes.store a d env id) as [d1 ?].
  destruct (createNotification d1 _ _) as [d2 ?]. simpl. done.
Qed.

Lemma create_rejected rule d env uid req :
  (OrderRoutes.create rule d env uid req).2.(Http.status) = 400 →
  (OrderRoutes.create rule d env uid req).1 = d.
Proof.
  unfold OrderRoutes.create.
  destruct (OrderRoutes.insertOrderSchema uid req) as [data|]; [|done].
  destruct (createOrder d _ _) as [d1 order].
  destruct (OrderRoutes.createOrderItems rule d1 _ _) as [d2 [|]];
    [|done].
  by destruct (createNotification d2 _ _).
Qed.

(** X2.  A request that a mutating handler answers 400, 403 or 404 leaves
    the database exactly as it was: every check of the handler runs before
    its first write.  This holds for applying a promotion, redeeming
    points, processing a payment, cancelling, pausing or resuming a
    subscription, and creating an order. *)
Theorem turned_down_writes_nothing (d : Db) (env : Env) (uid : Z)
    (status : Z) :
  status = 400 ∨ status = 403 ∨ status = 404 →
  (∀ orderId code,
     (PromotionRoutes.applyPromotion d env uid orderId code).2.(Http.status)
       = status →
     (PromotionRoutes.applyPromotion d env uid orderId code).1 = d)
  ∧ (∀ req,
       (PromotionRoutes.redeem d env uid req).2.(Http.status) = status →
       (PromotionRoutes.redeem d env uid req).1 = d)
  ∧ (∀ req,
       (PaymentRoutes.processPayment d env uid req).2.(Http.status)
         = status →
       (PaymentRoutes.processPayment d env uid req).1 = d)
  ∧ (∀ a id,
       (SubscriptionRoutes.handle a d env uid id).2.(Http.status)
         = status →
       (SubscriptionRoutes.handle a d env uid id).1 = d)
  ∧ (∀ rule req,
       (OrderRoutes.create rule d env uid req).2.(Http.status) = status →
       (OrderRoutes.create rule d env uid req).1 = d).
Proof.
  intros Hstatus.
  assert (status ≠ 200 ∧ status ≠ 201 ∧ status ≠ 500) as (H200 & H201 & H500)
    by lia.
  repeat split.
  - intros orderId code _. apply applyPromotion_never_applies.
  - intros req Hres. apply redeem_rejected. by rewrite Hres.
  - intros req Hres. apply processPayment_rejected. by rewrite Hres.
  - intros a id Hres. apply handle_rejected. by rewrite Hres.
  - intros rule req Hres. apply create_rejected.
    revert Hres. unfold OrderRoutes.create.
    destruct (OrderRoutes.insertOrderSchema uid req) as [data|]; [|done].
    destruct (createOrder d _ _) as [d1 order].
    destruct (OrderRoutes.createOrderItems rule d1 _ _) as [d2 [|]];
      [destruct (createNotification d2 _ _)|]; simpl; lia.
Qed.

Lemma turned_down_writes_nothing_witness :
  (PromotionRoutes.redeem Sample.db Sample.env 2
     (PromotionRoutes.Build_RedeemBody 30 1)).1 = Sample.db.
Proof.
  destruct (turned_down_writes_nothing Sample.db Sample.env 2 400)
    as (_ & Hredeem & _); [by left|].
  apply Hredeem. reflexivity.
Defined.

End Rejections.

(** ** Created orders and their items *)

Section Creation.
Import DatabaseStorage OrderRoutes.

Lemma getOrder_app_fresh (rows : list Order.t) (new : Order.t) i :
  head (select (λ o, o.(Order.id) = i) (rows ++ [new]))
  = match head (select (λ o, o.(Order.id) = i) rows) with
    | Some o => Some o
    | None => if decide (new.(Order.id) = i) then Some new else None
    end.
Proof.
  unfold select. rewrite filter_app.
  destruct (filter _ rows) as [|o l]; simpl; [|done].
  rewrite filter_cons, filter_nil. by case_decide.
Qed.


(** X3.  With the order sequence ahead of every stored id, [createOrder]
    stores a new order that [getOrder] finds under the id it returned, in
    status [pending] with payment status [pending] and no payment id; every
    order stored before is still found as it was, and the sequence stays
    ahead. *)
Theorem createOrder_roundtrip (d : Db) (now : Z) (order : InsertOrder.t) :
  ordersFresh d →
  let d' := (createOrder d now order).1 in
  let new := (createOrder d now order).2 in
  getOrder d' new.(Order.id) = Some new
  ∧ new.(Order.status) = "pending"
  ∧ new.(Order.paymentStatus) = "pending"
  ∧ new.(Order.paymentId) = None
  ∧ new.(Order.userId) = order.(InsertOrder.userId)
  ∧ new.(Order.totalAmount) = order.(InsertOrder.totalAmount)
  ∧ (∀ i o, getOrder d i = Some o → getOrder d' i = Some o)
  ∧ ordersFresh d'.
Proof.
  intros Hfresh d' new. subst d' new. unfold createOrder, getOrder. simpl.
  split; [|repeat split].
  - rewrite getOrder_app_fresh. simpl.
    destruct (head (select _ (orders d))) as [o|] eqn:E.
    + apply head_select_Some in E as [Hin Hid].
      specialize (Hfresh o Hin). lia.
    + by rewrite decide_True.
  - intros i o Hget. rewrite getOrder_app_fresh. by rewrite Hget.
  - intros o [Hin|Hin]%elem_of_app; simpl.
    + specialize (Hfresh o Hin). lia.
    + apply list_elem_of_singleton in Hin. subst o. simpl. lia.
Qed.

Lemma createOrder_roundtrip_witness :
  getOrder
    (createOrder Sample.db 2000
       (InsertOrder.mk 2 250 "4 Privet Drive" "5550100300")).1 3
  = Some (createOrder Sample.db 2000
            (InsertOrder.mk 2 250 "4 Privet Drive" "5550100300")).2.
Proof.
  destruct (createOrder_roundtrip Sample.db 2000
              (InsertOrder.mk 2 250 "4 Privet Drive" "5550100300"))
    as [Hget _]; [|exact Hget].
  intros o Hin. unfold Sample.db in Hin. simpl in Hin.
  apply elem_of_cons in Hin as [->|Hin]; [simpl; lia|].
  apply list_elem_of_singleton in Hin. subst o. simpl. lia.
Defined.






End Creation.

(** ** Promotions: the usage counter *)

Section PromotionFacts.
Import DatabaseStorage.

(** X5.  [incrementPromotionUse id] never changes a counter.  It looks for
    the promotion whose code is the decimal form of [id], not for the one
    whose id is [id].  With no promotion under that code it returns
    nothing and writes nothing; with one, its update names only
    [usageCount], which is no column of the table, and the call raises.
    So whenever it returns, the database is as it was. *)
Theorem incrementPromotionUse_never_writes (d : Db) (id : Z) :
  (getPromotionByCode d (Js.toString id) = None →
   incrementPromotionUse d id = Drizzle.Returned (d, None))
  ∧ (is_Some (getPromotionByCode d (Js.toString id)) →
     incrementPromotionUse d id = Drizzle.Raised)
  ∧ (∀ d' p, incrementPromotionUse d id = Drizzle.Returned (d', p) →
       d' = d ∧ p = None).
Proof.
  unfold incrementPromotionUse.
  destruct (getPromotionByCode d (Js.toString id)) as [source|].
  - split; [done|]. split; [done|]. intros d' p. by vm_compute.
  - split; [done|]. split; [by intros [? [=]]|].
    intros d' p [= <- <-]. done.
Qed.

Lemma incrementPromotionUse_never_writes_witness :
  incrementPromotionUse Fixture.crossed 1
  = Drizzle.Returned (Fixture.crossed, None)
  ∧ incrementPromotionUse Fixture.crossed 2 = Drizzle.Raised.
Proof.
  destruct (incrementPromotionUse_never_writes Fixture.crossed 1)
    as [Hnone _].
  destruct (incrementPromotionUse_never_writes Fixture.crossed 2)
    as (_ & Hsome & _).
  split; [apply Hnone; by vm_compute|].
  apply Hsome. vm_compute. by eexists.
Defined.

End PromotionFacts.

(** ** Notifications *)

Section NotificationFacts.
Import NotificationStorage NotificationRoutes.

#[local] Instance newestFirst_total : Total newestFirst.
Proof. intros a b. unfold newestFirst. lia. Qed.

#[local] Instance newestFirst_transitive : Transitive newestFirst.
Proof. intros a b c. unfold newestFirst. lia. Qed.

(** X7.  [getUserNotifications] returns the notifications of the user and
    no others, each as often as it is stored, newest first: every entry was
    created no earlier than the entries after it. *)
Theorem getUserNotifications_newest_first (d : Db) (userId : Z) :
  getUserNotifications d userId
    ≡ₚ filter (λ n, n.(Notification.userId) = userId) d.(notifications)
  ∧ StronglySorted
      (λ a b, b.(Notification.createdAt) ≤ a.(Notification.createdAt))
      (getUserNotifications d userId)
  ∧ (∀ n, n ∈ getUserNotifications d userId
          ↔ n ∈ d.(notifications) ∧ n.(Notification.userId) = userId).
Proof.
  unfold getUserNotifications, select. split; [|split].
  - apply merge_sort_Permutation.
  - apply (StronglySorted_merge_sort newestFirst).
  - intros n. rewrite merge_sort_Permutation, list_elem_of_filter.
    unfold ofUser. tauto.
Qed.

Lemma unread_after_markAll d userId :
  select (unreadOfUser userId)
    (update (unreadOfUser userId) setRead d.(notifications)) = [].
Proof.
  apply select_none. intros n Hn [Hu Hunread].
  apply elem_of_update in Hn as [(r & _ & _ & ->)|[_ Hnot]].
  - simpl in Hunread. discriminate.
  - apply Hnot. by split.
Qed.

(** X8.  After [markAllUserNotificationsAsRead] the user has no unread
    notification; the notifications of other users and the user's read ones
    are stored as before, and the marked ones differ in the read flag
    only.  The result is true exactly when some notification of the user
    was unread, so POST /api/notifications/read-all answers 200 with the
    user's notifications in that case and 500 when nothing was unread. *)
Theorem markAll_leaves_no_unread (d : Db) (userId : Z) :
  let d' := (markAllUserNotificationsAsRead d userId).1 in
  let unreadBefore :=
    ∃ n, n ∈ d.(notifications) ∧ n.(Notification.userId) = userId
         ∧ n.(Notification.isRead) = false in
  getUnreadUserNotifications d' userId = []
  ∧ (∀ n, n ∈ d.(notifications) → ¬ unreadOfUser userId n →
          n ∈ d'.(notifications))
  ∧ (∀ n, n ∈ d.(notifications) → unreadOfUser userId n →
          setRead n ∈ d'.(notifications))
  ∧ length d'.(notifications) = length d.(notifications)
  ∧ ((markAllUserNotificationsAsRead d userId).2 = true ↔ unreadBefore)
  ∧ (unreadBefore →
       (readAll d userId).2 = Rest.Json 200 (getUserNotifications d' userId))
  ∧ (¬ unreadBefore →
       Rest.status (readAll d userId).2 = 500
       ∧ (readAll d userId).1.(notifications) = d.(notifications)).
Proof.
  intros d' unreadBefore. subst d'.
  assert ((markAllUserNotificationsAsRead d userId).2 = true ↔ unreadBefore)
    as Hres.
  { unfold markAllUserNotificationsAsRead. simpl.
    rewrite bool_decide_eq_true, rowCount_positive.
    unfold unreadBefore, unreadOfUser. split.
    - intros (n & Hn & Hu & Hun). by exists n.
    - intros (n & Hn & Hu & Hun). by exists n. }
  split; [|split; [|split; [|split; [|split; [exact Hres|split]]]]].
  - unfold getUnreadUserNotifications, markAllUserNotificationsAsRead.
    simpl. by rewrite unread_after_markAll.
  - intros n Hn Hnot. simpl. apply elem_of_update. by right.
  - intros n Hn Hun. simpl. apply elem_of_update. left. by exists n.
  - simpl. unfold update. by rewrite length_fmap.
  - intros Hsome. apply Hres in Hsome. unfold readAll.
    destruct (markAllUserNotificationsAsRead d userId) as [d1 ok].
    simpl in *. by subst ok.
  - intros Hnone. unfold readAll.
    assert ((markAllUserNotificationsAsRead d userId).2 = false) as Hfalse.
    { apply not_true_iff_false. intros E. by apply Hres in E. }
    assert ((markAllUserNotificationsAsRead d userId).1.(notifications)
            = d.(notifications)) as Hsame.
    { simpl. apply update_none. intros r Hr [Hu Hun]. apply Hnone.
      by exists r. }
    destruct (markAllUserNotificationsAsRead d userId) as [d1 ok].
    simpl in *. by subst ok.
Qed.

Lemma markAll_leaves_no_unread_witness :
  (readAll Fixture.db 1).2
  = Rest.Json 200
      (getUserNotifications
         (markAllUserNotificationsAsRead Fixture.db 1).1 1).
Proof.
  apply (markAll_leaves_no_unread Fixture.db 1).
  exists Fixture.unreadNote. split; [|by split].
  unfold Fixture.db. simpl. right. left.
Defined.

(** X9.  DELETE /api/notifications/:id looks at the id only, not at the
    requester: when some notification has the id, whoever owns it, the
    answer is 204, no notification with that id remains and every other
    notification stays; when none has it, the answer is 500 and nothing is
    removed. *)
Theorem remove_ignores_owner (d : Db) (uid id : Z) :
  let d' := (remove d uid id).1 in
  (∀ n, n ∈ d'.(notifications)
        ↔ n ∈ d.(notifications) ∧ n.(Notification.id) ≠ id)
  ∧ ((∃ n, n ∈ d.(notifications) ∧ n.(Notification.id) = id) →
     (remove d uid id).2 = Rest.Empty 204)
  ∧ ((∀ n, n ∈ d.(notifications) → n.(Notification.id) ≠ id) →
     Rest.status (remove d uid id).2 = 500
     ∧ d'.(notifications) = d.(notifications)).
Proof.
  intros d'. subst d'. unfold remove, deleteNotification.
  split; [|split].
  - intros n. case_bool_decide; simpl;
      apply (elem_of_delete (λ n, Notification.id n = id)).
  - intros Hsome. rewrite bool_decide_eq_true_2; [done|].
    by apply rowCount_positive.
  - intros Hnone. rewrite bool_decide_eq_false_2.
    + simpl. split; [done|]. unfold delete.
      apply (select_all (λ r, ¬ Notification.id r = id)).
      intros r Hr. by apply Hnone.
    + rewrite rowCount_positive. intros (n & Hn & Hid). by apply (Hnone n).
Qed.

Lemma remove_ignores_owner_witness :
  (remove Fixture.db 1 3).2 = Rest.Empty 204
  ∧ Fixture.bobNote.(Notification.userId) = 2.
Proof.
  split; [|reflexivity].
  apply (remove_ignores_owner Fixture.db 1 3).
  exists Fixture.bobNote. split; [|reflexivity].
  unfold Fixture.db. simpl. right. right. left.
Defined.

End NotificationFacts.

(** ** Marking orders paid *)

Section Checkout.
Import DatabaseStorage OrderStorage CheckoutRoutes.



(** What [record] does with a payload the database takes. *)
Lemma record_taken d env p paymentStatus :
  Int4.takes p.(order_id) = true →
  let id := Js.floor p.(order_id) in
  let res := record d env (Some p) paymentStatus in
  res.2 = Rest.Empty 200
  ∧ (∀ order, getOrder d id = Some order →
       ∃ paid, getOrder res.1 id = Some paid
         ∧ paid.(Order.paymentStatus) = paymentStatus
         ∧ paid.(Order.paymentId) = Some p.(payment_id)
         ∧ paid.(Order.updatedAt) = env.(now)
         ∧ paid.(Order.userId) = order.(Order.userId)
         ∧ paid.(Order.totalAmount) = order.(Order.totalAmount)
         ∧ paid.(Order.status) = order.(Order.status))
  ∧ (getOrder d id = None → res.1.(orders) = d.(orders))
  ∧ (∀ i, i ≠ id → getOrder res.1 i = getOrder d i).
Proof.
  intros Htakes id res. subst id res. unfold record. rewrite Htakes.
  unfold updateOrderPayment. cbn [fst snd].
  split; [done|]. split; [|split].
  - intros order Ho. rewrite getOrder_updateOrders, Ho by done.
    simpl. rewrite decide_True by done. by eexists.
  - intros Hnone. simpl. apply update_none.
    exact (proj1 (head_select_None _ _) Hnone).
  - intros i Hi. rewrite getOrder_updateOrders by done.
    rewrite decide_False by done. by destruct (getOrder d i).
Qed.

(** X11.  POST /api/razorpay-webhook answers 200 or 500.  An event other
    than [payment.captured] and [payment.failed] is answered 200 and
    changes nothing.  For those two, a body without payload and a payload
    whose [order_id] is no 32-bit integer are answered 500 and change
    nothing; any other payload is answered 200, and the order it names, if
    stored, then has payment status [completed] or [failed], the payment
    id of the payload and the time of the call as [updatedAt], whatever
    its payment status was before, with owner, total and status as they
    were.  No other order changes. *)
Theorem razorpayWebhook_overwrites (d : Db) (env : Env)
    (body : WebhookBody) (paymentStatus : string) :
  body.(event) = "payment.captured" ∧ paymentStatus = "completed"
  ∨ body.(event) = "payment.failed" ∧ paymentStatus = "failed" →
  let res := razorpayWebhook d env body in
  (∀ other, other ≠ "payment.captured" → other ≠ "payment.failed" →
     razorpayWebhook d env (Build_WebhookBody other body.(payload))
     = (d, Rest.Empty 200))
  ∧ (body.(payload) = None →
     res = (d, Rest.Failure 500 "Error processing webhook"))
  ∧ (∀ p, body.(payload) = Some p →
       (Int4.takes p.(order_id) = false →
        res = (d, Rest.Failure 500 "Error processing webhook"))
       ∧ (Int4.takes p.(order_id) = true →
          res.2 = Rest.Empty 200
          ∧ (∀ order, getOrder d (Js.floor p.(order_id)) = Some order →
               ∃ paid,
                 getOrder res.1 (Js.floor p.(order_id)) = Some paid
                 ∧ paid.(Order.paymentStatus) = paymentStatus
                 ∧ paid.(Order.paymentId) = Some p.(payment_id)
                 ∧ paid.(Order.updatedAt) = env.(now)
                 ∧ paid.(Order.userId) = order.(Order.userId)
                 ∧ paid.(Order.totalAmount) = order.(Order.totalAmount)
                 ∧ paid.(Order.status) = order.(Order.status))
          ∧ (getOrder d (Js.floor p.(order_id)) = None →
             res.1.(orders) = d.(orders))
          ∧ (∀ i, i ≠ Js.floor p.(order_id) →
               getOrder res.1 i = getOrder d i))).
Proof.
  intros Hevent res.
  assert (res = record d env body.(payload) paymentStatus) as ->.
  { subst res. unfold razorpayWebhook.
    destruct Hevent as [[He ->]|[He ->]]; rewrite He.
    - by rewrite bool_decide_eq_true_2.
    - rewrite bool_decide_eq_false_2 by done.
      by rewrite bool_decide_eq_true_2. }
  split; [|split].
  - intros other H1 H2. unfold razorpayWebhook. simpl.
    by rewrite !bool_decide_eq_false_2.
  - by intros ->.
  - intros p ->. split.
    + intros Hout. unfold record. by rewrite Hout.
    + intros Htakes. by apply record_taken.
Qed.

Lemma razorpayWebhook_overwrites_witness :
  Order.paymentStatus
    <$> getOrder
          (razorpayWebhook
             (razorpayWebhook Sample.db Sample.env
                (Build_WebhookBody "payment.captured"
                   (Some (Build_Payload 1 "pay_1")))).1
             Sample.env
             (Build_WebhookBody "payment.failed"
                (Some (Build_Payload 1 "pay_1")))).1 1
  = Some "failed"
  ∧ razorpayWebhook Sample.db Sample.env
      (Build_WebhookBody "payment.failed" None)
    = (Sample.db, Rest.Failure 500 "Error processing webhook").
Proof.
  split.
  - destruct (razorpayWebhook_overwrites
                (razorpayWebhook Sample.db Sample.env
                   (Build_WebhookBody "payment.captured"
                      (Some (Build_Payload 1 "pay_1")))).1
                Sample.env
                (Build_WebhookBody "payment.failed"
                   (Some (Build_Payload 1 "pay_1")))
                "failed") as (_ & _ & Hw); [by right|].
    destruct (Hw _ eq_refl) as [_ Htaken].
    destruct Htaken as (_ & Hpaid & _); [by vm_compute|].
    edestruct Hpaid as (paid & Hget & Hps & _); [by vm_compute|].
    change (Js.floor _) with 1 in Hget.
    rewrite Hget. simpl. by rewrite Hps.
  - destruct (razorpayWebhook_overwrites Sample.db Sample.env
                (Build_WebhookBody "payment.failed" None) "failed")
      as (_ & Hnone & _); [by right|].
    by apply Hnone.
Defined.

End Checkout.

(** ** Catalog administration *)

Section InventoryFacts.
Import DatabaseStorage InventoryRoutes.

Lemma table_updateStockOf k k' d id s :
  table k' (updateStockOf k d id s).1
  = if decide (k' = k) then setItemStock (table k d) id s else table k' d.
Proof. destruct k, k'; done. Qed.

Lemma stockSchema_Some stock s :
  stockSchema stock = Some s → 0 ≤ s ∧ (inject_Z s == stock)%Q.
Proof.
  unfold stockSchema, Js.isInteger, Js.floor.
  destruct (Qeq_bool _ _) eqn:E; [|done].
  case_bool_decide as Hpos; [|done]. simpl. intros [= <-].
  apply Qeq_bool_iff in E. split; [|done].
  change 0 with (Qfloor 0). by apply Qfloor_resp_le.
Qed.

(** The handler without the refusals of the database. *)
Lemma patchStock_spec (k : Component) (d : Db) (id : Z) (stock : Q) :
  let d' := (patchStock k d id stock).1 in
  (stockNonNegative d → stockNonNegative d')
  ∧ (stockSchema stock = None →
     patchStock k d id stock = (d, Rest.Failure 400 "Invalid stock data"))
  ∧ (∀ s, stockSchema stock = Some s →
       (getItem (table k d) id = None →
        Rest.status (patchStock k d id stock).2 = 404
        ∧ ∀ k', table k' d' = table k' d)
       ∧ (∀ item, getItem (table k d) id = Some item →
            (patchStock k d id stock).2
            = Rest.Json 200 (CatalogItem.set_stock s item)
            ∧ stockOf k d' id = Some s
            ∧ (inject_Z s == stock)%Q)).
Proof.
  intros d'. subst d'. unfold patchStock.
  destruct (stockSchema stock) as [s|] eqn:Hs; [|by repeat split].
  destruct (stockSchema_Some _ _ Hs) as [Hpos Hval].
  assert ((updateStockOf k d id s).2
          = CatalogItem.set_stock s <$> getItem (table k d) id) as Hret.
  { destruct k; apply (head_returning CatalogItem.id). }
  pose proof (λ k', table_updateStockOf k k' d id s) as Htab.
  destruct (updateStockOf k d id s) as [d1 updated]. simpl in *.
  subst updated.
  assert ((match CatalogItem.set_stock s <$> getItem (table k d) id with
           | Some item => (d1, Rest.Json 200 item)
           | None => (d1, Rest.Failure 404 (notFound k))
           end).1 = d1) as Hfst by (by destruct (_ <$> _)).
  split; [|split; [done|]].
  - rewrite Hfst. intros Hinv k' c Hc. rewrite Htab in Hc.
    case_decide as Hk; [|by apply (Hinv k')]. subst k'.
    unfold setItemStock in Hc.
    apply elem_of_update in Hc as [(r & _ & _ & ->)|[Hc _]]; [done|].
    by apply (Hinv k).
  - intros ? [= <-]. split.
    + intros Hnone. rewrite Hnone. simpl. split; [done|].
      intros k'. rewrite Htab. case_decide as Hk; [|done]. subst k'.
      unfold setItemStock. apply update_none.
      exact (proj1 (head_select_None _ _) Hnone).
    + intros item Hitem. rewrite Hitem. simpl. split; [done|].
      split; [|done]. unfold stockOf. rewrite Htab, decide_True by done.
      rewrite getItem_setItemStock, Hitem. simpl.
      by rewrite decide_True.
Qed.

(** X12.  The stock routes of the administration keep the catalog free of
    negative stock: if no stock is negative before
    PATCH /api/admin/pizza-.../:id/stock, none is afterwards.  A body whose
    [stock] is not a number, is negative or is not an integer is answered
    400.  With a stock that passes, an id that is no number or no 32-bit
    integer and a stock above 2147483647 are answered 500; otherwise an
    unknown id is answered 404, and a known one 200 with the item holding
    exactly the stock sent.  Only the answer 200 changes anything. *)
Theorem patchStock_keeps_stock_non_negative (k : Component) (d : Db)
    (id : option Z) (body : Json.t) :
  let res := patchStockBounded k d id body in
  (stockNonNegative d → stockNonNegative res.1)
  ∧ ((∀ stock, body = Json.Num stock → stockSchema stock = None) →
     res = (d, Rest.Failure 400 "Invalid stock data"))
  ∧ (∀ stock s, body = Json.Num stock → stockSchema stock = Some s →
       0 ≤ s ∧ (inject_Z s == stock)%Q
       ∧ ((∀ i, id = Some i → ¬ (Int4.fits i ∧ Int4.fits s)) →
          res = (d, Rest.Failure 500 (failed k)))
       ∧ (∀ i, id = Some i → Int4.fits i → Int4.fits s →
            (getItem (table k d) i = None →
             res = (d, Rest.Failure 404 (notFound k)))
            ∧ (∀ item, getItem (table k d) i = Some item →
                 res.2 = Rest.Json 200 (CatalogItem.set_stock s item)
                 ∧ stockOf k res.1 i = Some s
                 ∧ (∀ k' j, (k', j) ≠ (k, i) →
                      stockOf k' res.1 j = stockOf k' d j)))).
Proof.
  intros res. subst res. unfold patchStockBounded.
  destruct body as [|b|stock|str|l|m];
    try (split; [done|]; split; [done|]; by intros ? ? [=]).
  destruct (stockSchema stock) as [s|] eqn:Hs.
  2: { split; [done|]. split; [done|]. intros ? ? [= <-]. congruence. }
  destruct (stockSchema_Some _ _ Hs) as [Hpos Hval].
  split; [|split].
  { destruct id as [i|]; [|done]. case_decide; [|done].
    apply (patchStock_spec k d i stock). }
  { intros Hno. by rewrite (Hno stock eq_refl) in Hs. }
  intros stock' s' [= <-] Hs'. rewrite Hs in Hs'. injection Hs' as <-.
  split; [done|]. split; [done|]. split.
  { intros Hno. destruct id as [i|]; [|done].
    rewrite decide_False; [done|]. by apply Hno. }
  intros i -> Hi Hfit. rewrite decide_True by done.
  destruct (patchStock_spec k d i stock) as (_ & _ & Hok).
  destruct (Hok s Hs) as [Hnone Hsome].
  pose proof (λ k', table_updateStockOf k k' d i s) as Htab.
  assert ((updateStockOf k d i s).2
          = CatalogItem.set_stock s <$> getItem (table k d) i) as Hret
    by (destruct k; apply (head_returning CatalogItem.id)).
  split.
  - intros Hmiss. rewrite Hmiss in Hret.
    assert ((updateStockOf k d i s).1 = d) as Hd.
    { destruct k; simpl in Hmiss |- *;
        unfold updatePizzaBaseStock, updatePizzaSauceStock,
          updatePizzaCheeseStock, updatePizzaToppingStock,
          setItemStock; simpl;
        rewrite update_none
          by exact (proj1 (head_select_None _ _) Hmiss);
        by destruct d. }
    unfold patchStock. rewrite Hs.
    destruct (updateStockOf k d i s) as [d1 updated]. simpl in *.
    by subst.
  - intros item Hitem. destruct (Hsome item Hitem) as (Hres & Hst & _).
    split; [done|]. split; [done|].
    intros k' j Hne. unfold patchStock. rewrite Hs.
    destruct (updateStockOf k d i s) as [d1 updated]. simpl in Htab.
    assert ((match updated with
             | Some item => (d1, Rest.Json 200 item)
             | None => (d1, Rest.Failure 404 (notFound k))
             end).1 = d1) as -> by (by destruct updated).
    unfold stockOf. rewrite Htab. case_decide as Hk; [|done].
    subst k'. rewrite getItem_setItemStock.
    rewrite decide_False by congruence.
    by destruct (getItem (table k d) j).
Qed.

Lemma patchStock_keeps_stock_non_negative_witness :
  stockOf Base
    (patchStockBounded Base Sample.db (Some 2) (Json.Num 40)).1 2
  = Some 40
  ∧ patchStockBounded Base Sample.db (Some 2) (Json.Num 2147483648)
    = (Sample.db, Rest.Failure 500 "Error updating pizza base stock").
Proof.
  destruct (patchStock_keeps_stock_non_negative Base Sample.db (Some 2)
              (Json.Num 40)) as (_ & _ & Hok).
  destruct (Hok 40%Q 40 eq_refl eq_refl) as (_ & _ & _ & Hset).
  destruct (Hset 2 eq_refl) as [_ Hfound]; [by vm_compute..|].
  destruct (Hfound Sample.thinCrust eq_refl) as (_ & Hstock & _).
  split; [exact Hstock|].
  destruct (patchStock_keeps_stock_non_negative Base Sample.db (Some 2)
              (Json.Num 2147483648)) as (_ & _ & Hbig).
  destruct (Hbig 2147483648%Q 2147483648 eq_refl eq_refl)
    as (_ & _ & Hrefused & _).
  apply Hrefused. intros i [= <-] [_ Hfit]. unfold Int4.fits in Hfit. lia.
Defined.

End InventoryFacts.

(** ** Default delivery address *)

Section AddressFacts.
Import AddressStorage.

Lemma owned_after_clearing t uid addressId :
  (∃ r, r ∈ update (λ a, a.(UserAddress.userId) = uid)
                (UserAddress.set_isDefault false) t
        ∧ ownedBy uid addressId r)
  ↔ ∃ a, a ∈ t ∧ ownedBy uid addressId a.
Proof.
  split.
  - intros (r & Hr & Hid & Hu).
    apply elem_of_update in Hr as [(a & Ha & Hau & ->)|[Hr Hnot]];
      [by exists a | by destruct Hnot].
  - intros (a & Ha & Hid & Hu).
    exists (UserAddress.set_isDefault false a). split; [|done].
    apply elem_of_update. left. by exists a.
Qed.

Lemma setDefault_result t uid addressId :
  (setDefaultUserAddress t uid addressId).2 = true
  ↔ ∃ a, a ∈ t ∧ ownedBy uid addressId a.
Proof.
  unfold setDefaultUserAddress. cbn [snd].
  rewrite bool_decide_eq_true, <- owned_after_clearing.
  unfold returning. rewrite head_is_Some. split.
  - intros Hne.
    destruct (filter (ownedBy uid addressId) _) as [|r l] eqn:E; [done|].
    assert (r ∈ filter (ownedBy uid addressId)
                  (update (λ a, a.(UserAddress.userId) = uid)
                     (UserAddress.set_isDefault false) t)) as Hin
      by (rewrite E; left).
    apply list_elem_of_filter in Hin. exists r. tauto.
  - intros (r & Hr & Hown) Hnil.
    apply fmap_nil_inv in Hnil.
    assert (r ∈ filter (ownedBy uid addressId)
                  (update (λ a, a.(UserAddress.userId) = uid)
                     (UserAddress.set_isDefault false) t)) as Hin
      by (by apply list_elem_of_filter).
    rewrite Hnil in Hin. by apply elem_of_nil in Hin.
Qed.

(** X13.  After [setDefaultUserAddress userId addressId] an address of the
    user is flagged default exactly when its id is [addressId], the
    addresses of other users are as before and no address is added or
    lost.  The result is true exactly when the user owns an address with
    that id; when it is false every address of the user has lost the flag.
    The route POST /api/profile/addresses/:id/default checks ownership
    first, so for an address of the requester it answers 200 with the
    user's addresses. *)
Theorem setDefault_flags_one_address (t : list UserAddress.t)
    (uid addressId : Z) :
  let t' := (setDefaultUserAddress t uid addressId).1 in
  let ok := (setDefaultUserAddress t uid addressId).2 in
  (∀ b, b ∈ t' → b.(UserAddress.userId) = uid →
        (b.(UserAddress.isDefault) = true ↔ b.(UserAddress.id) = addressId))
  ∧ (∀ b, b.(UserAddress.userId) ≠ uid → (b ∈ t' ↔ b ∈ t))
  ∧ length t' = length t
  ∧ (ok = true
     ↔ ∃ a, a ∈ t ∧ a.(UserAddress.id) = addressId
            ∧ a.(UserAddress.userId) = uid)
  ∧ (ok = false →
     ∀ b, b ∈ t' → b.(UserAddress.userId) = uid →
          b.(UserAddress.isDefault) = false)
  ∧ (∀ a, getUserAddress t addressId = Some a →
       a.(UserAddress.userId) = uid →
       (makeDefault t uid addressId).2
       = Rest.Json 200 (getUserAddresses t' uid)).
Proof.
  intros t' ok.
  pose proof (setDefault_result t uid addressId) as Hres. fold ok in Hres.
  assert (∀ b, b ∈ t' → b.(UserAddress.userId) = uid →
            (b.(UserAddress.isDefault) = true
             ∧ b.(UserAddress.id) = addressId
             ∧ ∃ a, a ∈ t ∧ ownedBy uid addressId a)
            ∨ (b.(UserAddress.isDefault) = false
               ∧ b.(UserAddress.id) ≠ addressId)) as Hcases.
  { intros b Hb Hu. subst t'. unfold setDefaultUserAddress in Hb.
    cbn [fst] in Hb.
    apply elem_of_update in Hb as [(r & Hr & [Hid Hru] & ->)|[Hb Hnot]].
    - left. split; [done|]. split; [done|].
      apply owned_after_clearing. by exists r.
    - right.
      apply elem_of_update in Hb as [(r & Hr & Hru & ->)|[Hb Hother]];
        [|done].
      split; [done|]. intros Hid. apply Hnot. by split. }
  split; [|split; [|split; [|split; [|split]]]].
  - intros b Hb Hu. destruct (Hcases b Hb Hu) as [(-> & -> & _)|[-> Hne]];
      split; try done; intros; congruence.
  - intros b Hne. subst t'. unfold setDefaultUserAddress. cbn [fst].
    rewrite elem_of_update. split.
    + intros [(r & _ & [_ Hru] & ->)|[Hb _]]; [done|].
      apply elem_of_update in Hb as [(r & _ & Hru & ->)|[Hb _]]; done.
    + intros Hb. right. split; [|by intros [_ ?]].
      apply elem_of_update. by right.
  - subst t'. unfold setDefaultUserAddress, update. cbn [fst].
    by rewrite !length_fmap.
  - rewrite Hres. unfold ownedBy. split.
    + intros (a & Ha & Hid & Hu). by exists a.
    + intros (a & Ha & Hid & Hu). by exists a.
  - intros Hfalse b Hb Hu.
    destruct (Hcases b Hb Hu) as [(_ & _ & Hown)|[-> _]]; [|done].
    apply Hres in Hown. congruence.
  - intros a Ha Hu. unfold makeDefault. rewrite Ha.
    rewrite bool_decide_eq_false_2 by (intros ?; contradiction).
    assert (ok = true) as Hok.
    { apply Hres. unfold getUserAddress in Ha.
      apply head_select_Some in Ha as [Hin Hid]. by exists a. }
    subst ok t'.
    destruct (setDefaultUserAddress t uid addressId) as [t1 success].
    simpl in *. by subst success.
Qed.

Lemma setDefault_flags_one_address_witness :
  (makeDefault Fixture.addresses 1 2).2
  = Rest.Json 200
      (getUserAddresses
         (setDefaultUserAddress Fixture.addresses 1 2).1 1).
Proof.
  destruct (setDefault_flags_one_address Fixture.addresses 1 2)
    as (_ & _ & _ & _ & _ & Hroute).
  apply (Hroute Fixture.office); reflexivity.
Defined.

End AddressFacts.

(** ** Subscription plans *)

Section PlanFacts.
Import PlanStorage.

Lemma getSubscriptionPlan_update t id f i :
  (∀ p, (f p).(SubscriptionPlan.id) = p.(SubscriptionPlan.id)) →
  getSubscriptionPlan (update (λ p, p.(SubscriptionPlan.id) = id) f t) i
  = (if decide (i = id) then f else λ p, p) <$> getSubscriptionPlan t i.
Proof. intros Hf. by apply head_select_update. Qed.

(** X14.  [toggleSubscriptionPlanStatus] flips the active flag of a stored
    plan and returns the flipped plan; a second toggle restores the plan as
    it was.  Other plans are untouched, and the toggled plan is on the list
    of [getAllSubscriptionPlans] exactly when it was inactive before, while
    [getSubscriptionPlan] keeps finding it. *)
Theorem toggle_twice_restores (t : list SubscriptionPlan.t) (id : Z)
    (plan : SubscriptionPlan.t) :
  getSubscriptionPlan t id = Some plan →
  let flipped :=
    SubscriptionPlan.set_isActive (negb plan.(SubscriptionPlan.isActive))
      plan in
  let t1 := (toggleSubscriptionPlanStatus t id).1 in
  let t2 := (toggleSubscriptionPlanStatus t1 id).1 in
  (toggleSubscriptionPlanStatus t id).2 = Some flipped
  ∧ getSubscriptionPlan t1 id = Some flipped
  ∧ getSubscriptionPlan t2 id = Some plan
  ∧ (∀ other, other ≠ id →
       getSubscriptionPlan t1 other = getSubscriptionPlan t other)
  ∧ (flipped ∈ getAllSubscriptionPlans t1
     ↔ plan.(SubscriptionPlan.isActive) = false).
Proof.
  intros Hplan flipped t1 t2.
  assert (getSubscriptionPlan t1 id = Some flipped) as H1.
  { subst t1. unfold toggleSubscriptionPlanStatus. rewrite Hplan.
    cbn [fst]. rewrite getSubscriptionPlan_update, Hplan by done.
    simpl. by rewrite decide_True. }
  split; [|split; [exact H1|split; [|split]]].
  - unfold toggleSubscriptionPlanStatus. rewrite Hplan. cbn [snd].
    rewrite (head_returning SubscriptionPlan.id).
    unfold getSubscriptionPlan in Hplan. by rewrite Hplan.
  - subst t2. unfold toggleSubscriptionPlanStatus at 1. rewrite H1.
    cbn [fst]. rewrite getSubscriptionPlan_update, H1 by done.
    simpl. rewrite decide_True by done. f_equal.
    destruct plan as [? ? ? []]; reflexivity.
  - intros other Hne. subst t1. unfold toggleSubscriptionPlanStatus.
    rewrite Hplan. cbn [fst].
    rewrite getSubscriptionPlan_update by done.
    rewrite decide_False by done. by destruct (getSubscriptionPlan t other).
  - unfold getAllSubscriptionPlans, select.
    rewrite list_elem_of_filter. split.
    + intros [Hact _]. simpl in Hact. by apply negb_true_iff in Hact.
    + intros Hoff. split; [simpl; by rewrite Hoff|].
      unfold getSubscriptionPlan in H1.
      apply head_select_Some in H1. tauto.
Qed.

Lemma toggle_twice_restores_witness :
  getSubscriptionPlan
    (toggleSubscriptionPlanStatus
       (toggleSubscriptionPlanStatus [Fixture.weeklyPlan] 1).1 1).1 1
  = Some Fixture.weeklyPlan.
Proof.
  apply (toggle_twice_restores [Fixture.weeklyPlan] 1 Fixture.weeklyPlan).
  reflexivity.
Defined.

End PlanFacts.

(** ** Reviews *)

Section ReviewFacts.
Import ReviewRoutes.

(** Zod measures a string as JavaScript does: two letters with accents are
    two units, in four bytes. *)
Lemma length_counts_code_units :
  Js.length "éà" = 2%nat ∧ String.length "éà" = 4%nat.
Proof. by vm_compute. Qed.

(** X15.  POST /api/orders/:id/reviews answers 201 exactly when the order
    exists, belongs to the requester, has status [delivered], the rating is
    an integer between 1 and 5 and the comment has 3 to 500 UTF-16 code
    units; the reviews already stored play no part, so an order can be
    reviewed again.
    An accepted request appends one review carrying the requester, the
    order, the rating and the comment; any other request leaves the reviews
    as they were. *)
Theorem review_needs_delivered_order (d : Db) (r : Reviews) (env : Env)
    (uid orderId : Z) (rating : Q) (comment : string) :
  let res := post d r env uid orderId rating comment in
  (Rest.status res.2 = 201
   ↔ ∃ order, DatabaseStorage.getOrder d orderId = Some order
       ∧ order.(Order.userId) = uid
       ∧ order.(Order.status) = "delivered"
       ∧ Js.isInteger rating = true
       ∧ (1 <= rating)%Q ∧ (rating <= 5)%Q
       ∧ (3 ≤ Js.length comment)%nat
       ∧ (Js.length comment ≤ 500)%nat)
  ∧ (Rest.status res.2 = 201 →
     res.1.(rows)
     = (r.(rows)
        ++ [Review.mk r.(seq) uid orderId (Js.floor rating) comment
              env.(now)])%list
     ∧ res.1.(seq) = r.(seq) + 1)
  ∧ (Rest.status res.2 ≠ 201 → res.1 = r).
Proof.
  intros res. subst res. unfold post.
  destruct (DatabaseStorage.getOrder d orderId) as [order|];
    [|split; [split; [done | by intros (? & ? & _)] | done]].
  case_bool_decide as Howner.
  { split; [|done]. split; [done|]. intros (o & [= <-] & ? & _). done. }
  case_bool_decide as Hstatus.
  { split; [|done]. split; [done|]. intros (o & [= <-] & _ & ? & _). done. }
  assert (Order.userId order = uid) as Huid
    by (by destruct (decide (Order.userId order = uid))).
  assert (Order.status order = "delivered") as Hdelivered
    by (by destruct (decide (Order.status order = "delivered"))).
  destruct (reviewSchema rating comment) eqn:Hschema; simpl.
  - unfold reviewSchema in Hschema.
    rewrite !andb_true_iff, !bool_decide_eq_true in Hschema.
    unfold createReview.
    destruct (Js.isInteger rating) eqn:Hint; simpl.
    + split; [|done]. split; [intros _|done].
      exists order. repeat split; tauto.
    + split; [|done]. split; [done|].
      by intros (o & _ & _ & _ & ? & _).
  - split; [|done]. split; [done|].
    intros (o & _ & _ & _ & _ & H1 & H2 & H3 & H4).
    unfold reviewSchema in Hschema.
    rewrite !bool_decide_eq_true_2 in Hschema by done. done.
Qed.

Lemma review_needs_delivered_order_witness :
  (post Fixture.delivered (Build_Reviews [] 1) Sample.env 1 1 5 "Crisp").1
    .(rows)
  = [Review.mk 1 1 1 5 "Crisp" 2000].
Proof.
  apply (review_needs_delivered_order Fixture.delivered (Build_Reviews [] 1)
           Sample.env 1 1 5 "Crisp").
  reflexivity.
Defined.

End ReviewFacts.

(** ** Similar configurations *)

Section SimilarFacts.
Import Recommendations.

(** X16.  [getSimilarPizzaConfigs] returns at most three configurations.
    Each keeps the cheese of the given one and at most its first topping,
    and either keeps its base and takes a stored sauce with another id or
    keeps its sauce and takes a stored base with another id; a
    configuration with neither base nor sauce gets none. *)
Theorem similar_configs_share_a_component (d : Db) (config : PizzaConfig.t) :
  let result := getSimilarPizzaConfigs d config in
  (length result ≤ 3)%nat
  ∧ (∀ c, c ∈ result →
       c.(PizzaConfig.cheese) = config.(PizzaConfig.cheese)
       ∧ c.(PizzaConfig.toppings) = take 1 config.(PizzaConfig.toppings)
       ∧ (length c.(PizzaConfig.toppings) ≤ 1)%nat
       ∧ ((c.(PizzaConfig.base) = config.(PizzaConfig.base)
           ∧ is_Some config.(PizzaConfig.base)
           ∧ ∃ s, s ∈ d.(pizzaSauces) ∧ c.(PizzaConfig.sauce) = Some s
                  ∧ Some s.(CatalogItem.id)
                    ≠ idOf config.(PizzaConfig.sauce))
          ∨ (c.(PizzaConfig.sauce) = config.(PizzaConfig.sauce)
             ∧ is_Some config.(PizzaConfig.sauce)
             ∧ ∃ b, b ∈ d.(pizzaBases) ∧ c.(PizzaConfig.base) = Some b
                    ∧ Some b.(CatalogItem.id)
                      ≠ idOf config.(PizzaConfig.base))))
  ∧ (config.(PizzaConfig.base) = None →
     config.(PizzaConfig.sauce) = None → result = []).
Proof.
  intros result. subst result. unfold getSimilarPizzaConfigs.
  split; [|split].
  - rewrite length_take. lia.
  - intros c Hc. apply elem_of_take_1 in Hc.
    assert (length (take 1 (PizzaConfig.toppings config)) ≤ 1)%nat as Hlen
      by (rewrite length_take; lia).
    apply elem_of_app in Hc as [Hc|Hc].
    + destruct (PizzaConfig.base config) as [b|] eqn:Hb;
        [|by apply elem_of_nil in Hc].
      apply list_elem_of_fmap in Hc as (s & -> & Hs).
      apply elem_of_take_1, list_elem_of_filter in Hs as [Hne Hs].
      simpl. repeat split; try done. left. repeat split; eauto.
    + destruct (PizzaConfig.sauce config) as [s|] eqn:Hs;
        [|by apply elem_of_nil in Hc].
      apply list_elem_of_fmap in Hc as (b & -> & Hb).
      apply elem_of_take_1, list_elem_of_filter in Hb as [Hne Hb].
      simpl. repeat split; try done. right. repeat split; eauto.
  - by intros -> ->.
Qed.

Lemma similar_configs_share_a_component_witness :
  Fixture.similar ∈ getSimilarPizzaConfigs Sample.db Sample.margherita
  ∧ Fixture.similar.(PizzaConfig.cheese)
    = Sample.margherita.(PizzaConfig.cheese).
Proof.
  pose (c := Fixture.similar).
  assert (c ∈ getSimilarPizzaConfigs Sample.db Sample.margherita) as Hin
    by (vm_compute; left).
  split; [exact Hin|].
  destruct (similar_configs_share_a_component Sample.db Sample.margherita)
    as (_ & Heach & _).
  destruct (Heach c Hin) as [Hcheese _]. exact Hcheese.
Defined.

End SimilarFacts.

(** ** The two storages on one catalog *)

Section TwoStorages.




End TwoStorages.

(** ** One subscription at a time *)

Section SubscriptionFrame.
Import DatabaseStorage SubscriptionRoutes.

(** X18.  A cancel, pause or resume request for one subscription leaves
    every subscription with another id stored as it was, whatever the
    answer. *)
Theorem handle_touches_one_subscription (a : Action) (d : Db) (env : Env)
    (uid id other : Z) :
  other ≠ id →
  getUserSubscription (handle a d env uid id).1 other
  = getUserSubscription d other.
Proof.
  intros Hne. unfold handle.
  destruct (getUserSubscription d id) as [s|]; [|done].
  case_bool_decide; [done|].
  assert (getUserSubscription (store a d env id).1 other
          = getUserSubscription d other) as Hstore.
  { destruct a; unfold store, cancelUserSubscription,
      pauseUserSubscription, resumeUserSubscription;
      rewrite getUserSubscription_update by done;
      rewrite decide_False by done;
      by destruct (getUserSubscription d other). }
  destruct (store a d env id) as [d1 updated].
  destruct (createNotification d1 _ _) as [d2 n] eqn:E.
  simpl in *. rewrite <- Hstore. unfold getUserSubscription.
  replace (userSubscriptions d2) with (userSubscriptions d1); [done|].
  unfold createNotification in E. by inversion E.
Qed.

Lemma handle_touches_one_subscription_witness :
  getUserSubscription (handle Cancel Sample.db Sample.env 1 1).1 2
  = Some Sample.lapsed.
Proof.
  rewrite (handle_touches_one_subscription Cancel Sample.db Sample.env 1 1 2)
    by lia.
  reflexivity.
Defined.

End SubscriptionFrame.

(** ** Requests made twice *)

Section Repeats.
Import DatabaseStorage PaymentRoutes PromotionRoutes.




Lemma redeemSchema_positive req points orderId :
  redeemSchema req = Some (points, orderId) → 0 < points.
Proof.
  unfold redeemSchema. intros Hreq.
  destruct (bool_decide (0 < PromotionRoutes.points req)%Q) eqn:Hpos;
    [|done].
  destruct (Js.isInteger (PromotionRoutes.points req)) eqn:Hint; [|done].
  apply bool_decide_eq_true in Hpos.
  assert (points = Js.floor (PromotionRoutes.points req)) as ->.
  { simpl in Hreq.
    destruct (bool_decide (0 < PromotionRoutes.orderId req)%Q
              && Js.isInteger (PromotionRoutes.orderId req)); [|done].
    by inversion Hreq. }
  unfold Js.isInteger in Hint. apply Qeq_bool_iff in Hint.
  unfold Js.floor. rewrite <- Hint in Hpos.
  rewrite Zlt_Qlt. exact Hpos.
Qed.

(** X20.  POST /api/loyalty-points/redeem does not look at what the order
    already records: after an accepted redemption a second one for the same
    order is accepted as well.  The answer quotes the discount of the
    second request, computed from the total the order had before both; the
    order then records the points of the second request only, and its
    total and discount amount are the ones it had before both.  The order
    id and the balances written are assumed within the 32-bit range of
    their columns. *)
Theorem redeem_overwrites_earlier_redemption (d : Db) (env env2 : Env)
    (uid : Z) (req1 req2 : RedeemBody) (p1 p2 orderId : Z)
    (user : User.t) (order : Order.t) :
  redeemSchema req1 = Some (p1, orderId) →
  redeemSchema req2 = Some (p2, orderId) →
  getUser d uid = Some user →
  p1 ≤ user.(User.loyaltyPoints) →
  p2 ≤ 2 * user.(User.loyaltyPoints) - p1 →
  Int4.fits orderId →
  2 * (2 * user.(User.loyaltyPoints) - p1) - p2 ≤ 2147483647 →
  getOrder d orderId = Some order →
  order.(Order.userId) = uid →
  let d1 := (redeem d env uid req1).1 in
  let again := redeem d1 env2 uid req2 in
  let discount :=
    Qmin (inject_Z p2 * (1 # 10)) order.(Order.totalAmount) in
  ∃ o remaining,
    again.2
    = Http.mk 200
        (Http.PointsRedeemed o discount
           (order.(Order.totalAmount) - discount)%Q remaining)
    ∧ getOrder again.1 orderId = Some o
    ∧ o.(Order.loyaltyPointsRedeemed) = p2
    ∧ o.(Order.discountAmount) = order.(Order.discountAmount)
    ∧ o.(Order.totalAmount) = order.(Order.totalAmount).
Proof.
  intros Hreq1 Hreq2 Huser Hle1 Hle2 _ _ Horder Howner d1 again discount.
  subst d1 again discount.
  pose proof (redeemSchema_positive _ _ _ Hreq1) as Hpos.
  destruct (redeem_accepted d env uid req1 p1 orderId user order
              Hreq1 Huser Hle1 Horder Howner) as (_ & Ho1 & Hu1).
  rewrite credited_nonneg in Hu1 by lia.
  destruct (redeem_accepted _ env2 uid req2 p2 orderId _ _
              Hreq2 Hu1 ltac:(simpl; lia) Ho1 Howner)
    as (Hanswer & Ho2 & _).
  eexists _, _. split; [exact Hanswer|]. split; [exact Ho2|]. done.
Qed.

Lemma redeem_overwrites_earlier_redemption_witness :
  ∃ o,
    getOrder
      (redeem (redeem Sample.db Sample.env 1 (Build_RedeemBody 30 1)).1
         Sample.env 1 (Build_RedeemBody 50 1)).1 1
    = Some o
    ∧ o.(Order.loyaltyPointsRedeemed) = 50.
Proof.
  destruct (redeem_overwrites_earlier_redemption Sample.db Sample.env
              Sample.env 1 (Build_RedeemBody 30 1) (Build_RedeemBody 50 1)
              30 50 1 Sample.alice Sample.order1)
    as (o & remaining & _ & Hget & Hpoints & _);
    [reflexivity | reflexivity | reflexivity | vm_compute; discriminate
    | vm_compute; discriminate | unfold Int4.fits; lia
    | vm_compute; discriminate | reflexivity | reflexivity |].
  exists o. split; [exact Hget | exact Hpoints].
Defined.

End Repeats.

(** ** What the lists show *)

Section Listings.
Import DatabaseStorage InventoryRoutes NotificationStorage
  NotificationRoutes OrderStorage OrderRoutes.





(** X23.  POST /api/orders with a body that passes the order schema adds
    one order to the orders of the requester and leaves the orders of
    every other user as they were.  It does so whether the answer is 201,
    which carries that order, or 500 because an order item was refused:
    the order stays.  A body that fails the schema is answered 400 and
    changes nothing. *)
Theorem create_lists_order_for_requester (rule : DrizzleZod.IntegerRule)
    (d : Db) (env : Env) (uid : Z) (req : OrderBody) :
  let res := create rule d env uid req in
  (insertOrderSchema uid req = None →
   res = (d, Http.mk 400 (Http.Invalid "Invalid order data")))
  ∧ (is_Some (insertOrderSchema uid req) →
     ∃ order,
       order.(Order.userId) = uid
       ∧ order.(Order.status) = "pending"
       ∧ getOrdersByUser res.1 uid ≡ₚ order :: getOrdersByUser d uid
       ∧ (∀ other, other ≠ uid →
            getOrdersByUser res.1 other = getOrdersByUser d other)
       ∧ (res.2 = Http.fail 500 "Error creating order"
          ∨ ∃ rows, res.2 = Http.mk 201 (Http.OrderWithItems order rows))).
Proof.
  intros res. subst res. unfold create.
  destruct (insertOrderSchema uid req) as [data|] eqn:Hreq.
  2: { split; [done|]. by intros [? [=]]. }
  split; [done|]. intros _.
  assert (data.(InsertOrder.userId) = uid) as Hu.
  { unfold insertOrderSchema in Hreq.
    destruct (totalAmount req), (deliveryAddress req), (contactNumber req);
      try done.
    by inversion Hreq. }
  assert ((createOrder d env.(now) data).1.(orders)
          = (d.(orders) ++ [(createOrder d env.(now) data).2])%list
          ∧ (createOrder d env.(now) data).2.(Order.userId) = uid
          ∧ (createOrder d env.(now) data).2.(Order.status) = "pending")
    as (Happ & Huid & Hst) by done.
  destruct (createOrder d env.(now) data) as [d1 order]. simpl in *.
  destruct (createOrderItems_frame rule order.(Order.id) req.(items) d1)
    as (_ & Ho & _).
  exists order. split; [done|]. split; [done|].
  assert (∀ who,
            getOrdersByUser
              (match createOrderItems rule d1 (Order.id order) (items req)
               with
               | (d2, true) =>
                   let '(d3, _) :=
                     createNotification d2 (now env)
                       (InsertNotification.mk uid "order_created"
                          "Order Created"
                          ("Your order #" +:+ Js.toString (Order.id order)
                           +:+ " has been created successfully.")
                          false) in
                   (d3,
                    Http.mk 201
                      (Http.OrderWithItems order
                         (getOrderItems d2 (Order.id order))))
               | (d2, false) => (d2, Http.fail 500 "Error creating order")
               end).1 who
            = select (λ o, o.(Order.userId) = who)
                (d.(orders) ++ [order])) as Hlist.
  { intros who. rewrite <- Happ, <- Ho.
    by destruct (createOrderItems rule d1 _ _) as [d2 [|]]. }
  split; [|split].
  - rewrite Hlist. unfold getOrdersByUser, select.
    rewrite filter_app, filter_cons, decide_True by done.
    rewrite filter_nil. by rewrite Permutation_app_comm.
  - intros other Hne. rewrite Hlist. unfold getOrdersByUser, select.
    rewrite filter_app, filter_cons.
    rewrite decide_False by congruence.
    by rewrite filter_nil, app_nil_r.
  - destruct (createOrderItems rule d1 _ _) as [d2 [|]]; simpl.
    + right. by eexists.
    + by left.
Qed.

Lemma create_lists_order_for_requester_witness :
  ∃ order,
    getOrdersByUser
      (create DrizzleZod.NumberOnly Sample.db Sample.env 1 Sample.cart).1 1
    ≡ₚ order :: getOrdersByUser Sample.db 1.
Proof.
  destruct (create_lists_order_for_requester DrizzleZod.NumberOnly
              Sample.db Sample.env 1 Sample.cart)
    as (_ & Hstored).
  destruct Hstored as (order & _ & _ & Hlist & _); [by eexists|].
  exists order. exact Hlist.
Defined.

End Listings.

(** ** Deleting an address *)

Section AddressRemoval.
Import AddressStorage.



End AddressRemoval.

(** ** The cart *)

Section CartFacts.
Import Cart.

Lemma removeFromCart_outside (l : list CartItem) : ∀ (m : nat) (index : Z),
  index < Z.of_nat m →
  snd <$> filter (λ p, Z.of_nat p.1 ≠ index)
            (imap (λ j x, ((m + j)%nat, x)) l)
  = l.
Proof.
  induction l as [|x l IH]; intros m index Hm; [done|].
  rewrite imap_cons, filter_cons, decide_True by (simpl; lia).
  simpl. f_equal.
  assert (imap ((λ j y, ((m + j)%nat, y)) ∘ S) l
          = imap (λ j y, ((S m + j)%nat, y)) l) as ->.
  { apply imap_ext. intros j y _. simpl. f_equal. lia. }
  apply IH. lia.
Qed.

Lemma removeFromCart_from (l : list CartItem) : ∀ (off i : nat),
  snd <$> filter (λ p, Z.of_nat p.1 ≠ Z.of_nat (off + i))
            (imap (λ j x, ((off + j)%nat, x)) l)
  = (take i l ++ drop (S i) l)%list.
Proof.
  induction l as [|x l IH]; intros off i; [by destruct i|].
  rewrite imap_cons, filter_cons. simpl.
  assert (imap ((λ j y, ((off + j)%nat, y)) ∘ S) l
          = imap (λ j y, ((S off + j)%nat, y)) l) as ->.
  { apply imap_ext. intros j y _. simpl. f_equal. lia. }
  destruct i as [|i].
  - rewrite decide_False by lia. rewrite drop_0. simpl.
    apply (removeFromCart_outside l (S off) (Z.of_nat (off + 0))). lia.
  - rewrite decide_True by (simpl; lia). simpl. f_equal.
    replace (off + S i)%nat with (S off + i)%nat by lia. apply IH.
Qed.

Lemma removeFromCart_at (l : list CartItem) (i : nat) :
  removeFromCart l (Z.of_nat i) = (take i l ++ drop (S i) l)%list.
Proof. apply (removeFromCart_from l 0 i). Qed.

Lemma calculateCartTotal_app (l : list CartItem) (item : CartItem) :
  calculateCartTotal (l ++ [item])
  = (calculateCartTotal l + item.(totalPrice) * quantityOr1 item)%Q.
Proof. unfold calculateCartTotal. by rewrite foldl_app. Qed.

(** X25.  [addToCart] appends the item as one line of quantity 1, whatever
    quantity the item came with, so the cart total grows by the item's
    price; removing the line just added gives the cart back, and removing
    at an index outside the cart, negative or too large, changes nothing. *)
Theorem addToCart_appends_one_line (prev : list CartItem)
    (item : CartItem) :
  length (addToCart prev item) = S (length prev)
  ∧ (calculateCartTotal (addToCart prev item)
     == calculateCartTotal prev + item.(totalPrice))%Q
  ∧ removeFromCart (addToCart prev item) (Z.of_nat (length prev)) = prev
  ∧ (∀ index, index < 0 ∨ Z.of_nat (length prev) ≤ index →
       removeFromCart prev index = prev).
Proof.
  split; [|split; [|split]].
  - unfold addToCart. rewrite length_app. simpl. lia.
  - unfold addToCart. rewrite calculateCartTotal_app.
    change (quantityOr1 (set_quantity 1 item)) with 1%Q.
    change (totalPrice (set_quantity 1 item)) with (totalPrice item).
    by rewrite Qmult_1_r.
  - rewrite removeFromCart_at. unfold addToCart.
    rewrite take_app_length, drop_ge; [by rewrite app_nil_r|].
    rewrite length_app. simpl. lia.
  - intros index [Hneg|Hbig].
    + apply (removeFromCart_outside prev 0 index). lia.
    + replace index with (Z.of_nat (Z.to_nat index)) by lia.
      rewrite removeFromCart_at.
      rewrite take_ge, drop_ge by lia. by rewrite app_nil_r.
Qed.

Lemma addToCart_appends_one_line_witness :
  removeFromCart [Fixture.cartLine] (-1) = [Fixture.cartLine].
Proof.
  destruct (addToCart_appends_one_line [Fixture.cartLine] Fixture.cartLine)
    as (_ & _ & _ & Houtside).
  apply Houtside. left. lia.
Defined.

End CartFacts.

(** ** The status of an order *)

Section StatusFacts.
Import DatabaseStorage OrderStorage AdminOrderRoutes.



End StatusFacts.

